(** * lintLLM: response interpretation and report emission

    A shallow embedding of [utils.py] and [lintLLM1.py]: the regular
    expressions of [parse_llm_result] run on a small backtracking matcher,
    Python values and exceptions are explicit, the report file is a piece
    of state, and the file system and the inference endpoint are an oracle.

    A [str] is modelled as a [string] whose characters are the code points
    below 256; [len], slicing and the character classes count characters. *)

From Stdlib Require Import String Ascii List ZArith Lia Bool Arith DecimalString.
Import ListNotations.
Local Open Scope string_scope.

(** ** Python [str] operations *)

Module PyStr.

Definition newline : ascii := "010"%char.

(** [str.isspace] on one character below 256; also the class [\s] of [re]
    for a [str] pattern. *)
Definition is_space (c : ascii) : bool :=
  let n := nat_of_ascii c in
  (((9 <=? n) && (n <=? 13)) || ((28 <=? n) && (n <=? 32))
   || (n =? 133) || (n =? 160))%nat.

(** [\d] below 256 and the class [[0-9]]. *)
Definition is_digit (c : ascii) : bool :=
  let n := nat_of_ascii c in ((48 <=? n) && (n <=? 57))%nat.

(** [[0-9\-]] *)
Definition is_digit_or_hyphen (c : ascii) : bool :=
  is_digit c || Ascii.eqb c "-".

(** [[A-Z_]] *)
Definition is_upper_or_underscore (c : ascii) : bool :=
  let n := nat_of_ascii c in (((65 <=? n) && (n <=? 90)) || (n =? 95))%nat.

(** [.] under [re.DOTALL] *)
Definition any_char (_ : ascii) : bool := true.

(** [.] without [re.DOTALL] *)
Definition not_newline (c : ascii) : bool := negb (Ascii.eqb c newline).

(** every character of [s] is in the class [p] *)
Fixpoint all_of (p : ascii -> bool) (s : string) : bool :=
  match s with
  | "" => true
  | String c s' => p c && all_of p s'
  end.

(** [s.startswith(sub)] *)
Fixpoint starts_with (sub s : string) : bool :=
  match sub, s with
  | "", _ => true
  | String a sub', String b s' => Ascii.eqb a b && starts_with sub' s'
  | String _ _, "" => false
  end.

(** [s[:n]] *)
Fixpoint take (n : nat) (s : string) : string :=
  match n, s with
  | S n', String c s' => String c (take n' s')
  | _, _ => ""
  end.

(** [s[n:]] *)
Fixpoint drop (n : nat) (s : string) : string :=
  match n, s with
  | S n', String _ s' => drop n' s'
  | _, _ => s
  end.

(** [sub in s] *)
Fixpoint contains (sub s : string) : bool :=
  starts_with sub s ||
  match s with
  | "" => false
  | String _ s' => contains sub s'
  end.

(** [s.find(sub)], [None] for -1 *)
Fixpoint find (sub s : string) : option nat :=
  if starts_with sub s then Some 0
  else match s with
       | "" => None
       | String _ s' => option_map S (find sub s')
       end.

Fixpoint lstrip_by (p : ascii -> bool) (s : string) : string :=
  match s with
  | String c s' => if p c then lstrip_by p s' else s
  | "" => ""
  end.

Fixpoint rstrip_by (p : ascii -> bool) (s : string) : string :=
  match s with
  | "" => ""
  | String c s' =>
      match rstrip_by p s' with
      | "" => if p c then "" else String c ""
      | r => String c r
      end
  end.

(** [s.strip()] *)
Definition strip (s : string) : string :=
  rstrip_by is_space (lstrip_by is_space s).

(** [s.rstrip(c)] for a one-character argument *)
Definition rstrip_char (c : ascii) (s : string) : string :=
  rstrip_by (Ascii.eqb c) s.

(** [s.split(c)[0]]: the text before the first [c], all of [s] when
    there is none. *)
Fixpoint split_head (c : ascii) (s : string) : string :=
  match s with
  | "" => ""
  | String a s' => if Ascii.eqb a c then "" else String a (split_head c s')
  end.

(** [s.replace(old, new)] for a non-empty [old]: occurrences are replaced
    from the left and do not overlap; [skip] counts the characters of the
    occurrence just replaced that are still to be passed over. *)
Fixpoint replace_from (old new s : string) (skip : nat) : string :=
  match s with
  | "" => ""
  | String c s' =>
      match skip with
      | S n => replace_from old new s' n
      | O =>
          if starts_with old s
          then new ++ replace_from old new s' (String.length old - 1)
          else String c (replace_from old new s' 0)
      end
  end.

Definition replace (old new s : string) : string :=
  replace_from old new s 0.

(** [str(n)] and [f"{n}"] for an [int] *)
Definition str_of_int (n : Z) : string :=
  NilZero.string_of_int (Z.to_int n).

(** [os.path.join(a, b)] of [posixpath] for two components *)
Definition path_join (a b : string) : string :=
  if starts_with "/" b then b
  else if (a =? "") || (drop (String.length a - 1) a =? "/") then a ++ b
  else a ++ "/" ++ b.

End PyStr.

(** ** The fragment of [re] the patterns are written in

    A backtracking matcher in continuation-passing style: alternatives are
    tried in the order [re] tries them, so the first success is the match
    [re.search] reports.  Repetition is over a character class, which is
    all the patterns of [utils.py] need. *)

Module Re.
Import PyStr.

Inductive regex : Type :=
| Str (lit : string)               (* literal text *)
| Chr (p : ascii -> bool)          (* one character of a class *)
| Star (p : ascii -> bool)         (* p*   greedy *)
| Plus (p : ascii -> bool)         (* p+   greedy *)
| StarLazy (p : ascii -> bool)     (* p*?  *)
| PlusLazy (p : ascii -> bool)     (* p+?  *)
| Opt (p : ascii -> bool)          (* p?   greedy *)
| Seq (r1 r2 : regex)
| Alt (r1 r2 : regex)              (* r1|r2 *)
| Group (r : regex)                (* ( r ), group 1 *)
| Eos                              (* $ without re.MULTILINE *)
| Ahead (r : regex).               (* (?= r ) *)

(** A match: the text of group 1 ([None] when the group took no part) and
    the input left after the match. *)
Definition rmatch : Type := (option string * string)%type.

Fixpoint star (p : ascii -> bool) (k : string -> option rmatch)
    (s : string) : option rmatch :=
  match s with
  | String c s' =>
      if p c
      then match star p k s' with
           | Some m => Some m
           | None => k s
           end
      else k s
  | "" => k s
  end.

Fixpoint star_lazy (p : ascii -> bool) (k : string -> option rmatch)
    (s : string) : option rmatch :=
  match k s with
  | Some m => Some m
  | None =>
      match s with
      | String c s' => if p c then star_lazy p k s' else None
      | "" => None
      end
  end.

Fixpoint exec (r : regex) (s : string) (g : option string)
    (k : string -> option string -> option rmatch) : option rmatch :=
  match r with
  | Str lit => if starts_with lit s then k (drop (String.length lit) s) g else None
  | Chr p =>
      match s with
      | String c s' => if p c then k s' g else None
      | "" => None
      end
  | Star p => star p (fun s' => k s' g) s
  | Plus p =>
      match s with
      | String c s' => if p c then star p (fun t => k t g) s' else None
      | "" => None
      end
  | StarLazy p => star_lazy p (fun s' => k s' g) s
  | PlusLazy p =>
      match s with
      | String c s' => if p c then star_lazy p (fun t => k t g) s' else None
      | "" => None
      end
  | Opt p =>
      match s with
      | String c s' =>
          if p c
          then match k s' g with
               | Some m => Some m
               | None => k s g
               end
          else k s g
      | "" => k s g
      end
  | Seq r1 r2 => exec r1 s g (fun s' g' => exec r2 s' g' k)
  | Alt r1 r2 =>
      match exec r1 s g k with
      | Some m => Some m
      | None => exec r2 s g k
      end
  | Group r1 =>
      exec r1 s g (fun s' _ => k s' (Some (take (String.length s - String.length s') s)))
  | Eos =>
      match s with
      | "" => k s g
      | String c "" => if Ascii.eqb c newline then k s g else None
      | _ => None
      end
  | Ahead r1 =>
      match exec r1 s g (fun s' g' => Some (g', s')) with
      | Some (g', _) => k s g'
      | None => None
      end
  end.

(** [re.match(r, s)] *)
Definition match_at (r : regex) (s : string) : option rmatch :=
  exec r s None (fun s' g => Some (g, s')).

(** [re.search(r, s)]: the match at the leftmost position that has one *)
Fixpoint search (r : regex) (s : string) : option rmatch :=
  match match_at r s with
  | Some m => Some m
  | None =>
      match s with
      | String _ s' => search r s'
      | "" => None
      end
  end.

(** [m.group(1)]; every pattern below has its group on the only way to a
    match, so the default is never taken. *)
Definition group1 (m : rmatch) : string :=
  match fst m with
  | Some g => g
  | None => ""
  end.

(** [re.sub(r, repl, s)] for a constant [repl]: matches are replaced from
    the left and do not overlap; [skip] counts the characters of the last
    match still to be passed over. *)
Fixpoint sub_from (r : regex) (repl s : string) (skip : nat) : string :=
  match s with
  | "" =>
      match match_at r "" with
      | Some _ => repl
      | None => ""
      end
  | String c s' =>
      match skip with
      | S n => sub_from r repl s' n
      | O =>
          match match_at r s with
          | Some (_, rest) =>
              match String.length s - String.length rest with
              | O => repl ++ String c (sub_from r repl s' 0)
              | S n => repl ++ sub_from r repl s' n
              end
          | None => String c (sub_from r repl s' 0)
          end
      end
  end.

Definition sub (r : regex) (repl s : string) : string :=
  sub_from r repl s 0.

End Re.

(** ** Python values, exceptions and the two effect layers *)

Module Py.
Import PyStr.

(** The values [json] decodes to; a [dict] keeps its entries in a list
    and a key is looked up from the front.  [PNum] stands for any number:
    the code never computes with one, every operation below that meets a
    number raises. *)
#[warnings="-register-all"] Inductive pyval : Type :=
| PNone
| PBool (b : bool)
| PNum (n : Z)
| PStr (s : string)
| PList (l : list pyval)
| PDict (d : list (string * pyval)).

(** An exception with its [str(e)]; only membership in
    [requests.exceptions.RequestException] is ever tested. *)
Inductive exc : Type :=
| RequestException (msg : string)
| TypeError (msg : string)
| KeyError (msg : string)
| OtherException (msg : string).

Definition exc_str (e : exc) : string :=
  match e with
  | RequestException m | TypeError m | KeyError m | OtherException m => m
  end.

Inductive outcome (A : Type) : Type :=
| Ret (a : A)
| Raise (e : exc).
Arguments Ret {A} a.
Arguments Raise {A} e.

Definition bind {A B} (c : outcome A) (f : A -> outcome B) : outcome B :=
  match c with
  | Ret a => f a
  | Raise e => Raise e
  end.

(** [try: c  except Exception as e: h e] *)
Definition try_except {A} (c : outcome A) (h : exc -> outcome A)
  : outcome A :=
  match c with
  | Ret a => Ret a
  | Raise e => h e
  end.

Fixpoint dict_get (key : string) (d : list (string * pyval))
  : option pyval :=
  match d with
  | [] => None
  | (k, v) :: d' => if k =? key then Some v else dict_get key d'
  end.

(** [key in v] for a [str] key *)
Definition py_in (key : string) (v : pyval) : outcome bool :=
  match v with
  | PDict d =>
      Ret (match dict_get key d with Some _ => true | None => false end)
  | PList l =>
      Ret (existsb (fun e => match e with
                             | PStr s => s =? key
                             | _ => false
                             end) l)
  | PStr s => Ret (contains key s)
  | PNone | PBool _ | PNum _ =>
      Raise (TypeError "argument is not iterable")
  end.

(** [v[key]] for a [str] key *)
Definition py_getitem (v : pyval) (key : string) : outcome pyval :=
  match v with
  | PDict d =>
      match dict_get key d with
      | Some x => Ret x
      | None => Raise (KeyError key)
      end
  | PList _ | PStr _ => Raise (TypeError "indices must be integers")
  | PNone | PBool _ | PNum _ => Raise (TypeError "not subscriptable")
  end.

(** truth value of [v] *)
Definition py_truthy (v : pyval) : bool :=
  match v with
  | PNone => false
  | PBool b => b
  | PNum n => negb (n =? 0)%Z
  | PStr s => negb (s =? "")
  | PList l => match l with [] => false | _ => true end
  | PDict d => match d with [] => false | _ => true end
  end.

(** what [re.search(pattern, v)] accepts as its subject *)
Definition as_str (v : pyval) : outcome string :=
  match v with
  | PStr s => Ret s
  | _ => Raise (TypeError "expected string or bytes-like object")
  end.

End Py.

Declare Scope py_scope.
Delimit Scope py_scope with py.
Notation "x <- c ;; k" := (Py.bind c (fun x => k))
  (at level 61, c at next level, right associativity) : py_scope.

(** ** utils.py *)

Module Utils.
Import PyStr Re Py.
Local Open Scope py_scope.

Module Config.
Definition OLLAMA_API := "http://localhost:11434/api/chat".
Definition MODEL_NAME := "qwen3:14b".
Definition MAX_TOKENS : Z := 2048.
Definition TEMPERATURE : Z := 0.
Definition TIMEOUT : Z := 30.
Definition MODULE_START_INDEX : Z := 1.
Definition MODULE_END_INDEX : Z := 31.
Definition PROJECT_PREFIXES := ["simple_"; "medium_"; "complex_"].
Definition FOLDER_NAMES := ["simple"; "medium"; "complex"].
Definition BASE_BENCHMARK_PATH := "Static-Verilog-Analysis/Benchmark".
End Config.

Definition nl : string := String newline "".

Definition lit (c : ascii) : regex := Chr (Ascii.eqb c).

Notation "r1 +++ r2" := (Seq r1 r2) (at level 60, right associativity).

(** [r'ALL DEFECT LINES:\s*\[([0-9\-]+)\]'] *)
Definition all_lines_re : regex :=
  Str "ALL DEFECT LINES:" +++ Star is_space +++ lit "["
    +++ Group (Plus is_digit_or_hyphen) +++ lit "]".

(** [r'MAIN DEFECT LINE:\s*\[(\d+)\]'] *)
Definition main_line_re : regex :=
  Str "MAIN DEFECT LINE:" +++ Star is_space +++ lit "["
    +++ Group (Plus is_digit) +++ lit "]".

(** [r'DEFECT LINE:\s*\[(\d+)\]'] *)
Definition defect_line_re : regex :=
  Str "DEFECT LINE:" +++ Star is_space +++ lit "["
    +++ Group (Plus is_digit) +++ lit "]".

(** [r'DEFECT CATEGORY:\s*\[?([A-Z_]+)\]?'] *)
Definition category_re : regex :=
  Str "DEFECT CATEGORY:" +++ Star is_space +++ Opt (Ascii.eqb "[")
    +++ Group (Plus is_upper_or_underscore) +++ Opt (Ascii.eqb "]").

(** [r'DESCRIPTION:\s*(.+?)(?:\n|$)'] with [re.DOTALL] *)
Definition description_re : regex :=
  Str "DESCRIPTION:" +++ Star is_space +++ Group (PlusLazy any_char)
    +++ Alt (lit newline) Eos.

(** [key + r'.*?(?=\n|$)'] *)
Definition marker_line_re (key : string) : regex :=
  Str key +++ StarLazy not_newline +++ Ahead (Alt (lit newline) Eos).

(** [description[:97] + '...'] when [len(description) > 100] *)
Definition cap100 (description : string) : string :=
  if (100 <? String.length description)%nat
  then take 97 description ++ "..."
  else description.

(** The structured description: group 1 of the [DESCRIPTION:] match,
    stripped, cut after its first full stop when it has one and capped
    otherwise; [""] without a match. *)
Definition structured_description (content : string) : string :=
  match search description_re content with
  | Some m =>
      let description := strip (group1 m) in
      if contains "." description
      then split_head "." description ++ "."
      else cap100 description
  | None => ""
  end.

Definition strip_marker (key content description : string) : string :=
  if contains key content
  then sub (marker_line_re key) "" description
  else description.

(** The description built from the content when no structured one was
    found. *)
Definition cleaned_description (content : string) : string :=
  let description :=
    replace "RESULT: [NO]" "" (replace "RESULT: [YES]" "" content) in
  let description := strip_marker "MULTIPLE DEFECTS:" content description in
  let description := strip_marker "ALL DEFECT LINES:" content description in
  let description := strip_marker "MAIN DEFECT LINE:" content description in
  let description := strip_marker "DEFECT LINE:" content description in
  let description := strip_marker "DEFECT CATEGORY:" content description in
  let description := strip (sub (Plus is_space) " " description) in
  cap100 description.

(** The body of [parse_llm_result] from the multiple-defects test on,
    for a [str] content. *)
Definition defect_fields (is_multiple : bool) (content : string)
  : option string * string * string :=
  let '(defect_line, main_line) :=
    if is_multiple
    then (option_map group1 (search all_lines_re content),
          option_map group1 (search main_line_re content))
    else
      match search defect_line_re content with
      | Some m => (Some (group1 m), Some (group1 m))
      | None => (None, None)
      end in
  let defect_category := option_map group1 (search category_re content) in
  let description := structured_description content in
  let defect_category :=
    match defect_category with
    | Some c => if c =? "" then "UNKNOWN" else c
    | None => "UNKNOWN"
    end in
  let description :=
    if description =? "" then cleaned_description content
    else description in
  (defect_line, defect_category, description).

(** [(defect_line, defect_category, defect_description)]; the description
    is a value because the error branch hands back [result['error']]
    as it is. *)
Definition defect_record : Type := (option string * string * pyval)%type.

Definition parse_llm_result (result : pyval) : outcome defect_record :=
  has_error <- py_in "error" result ;;
  if has_error : bool
  then
    e <- py_getitem result "error" ;;
    Ret (None, "ERROR", e)
  else
    shaped <-
      (if py_truthy result
       then
         has_message <- py_in "message" result ;;
         if has_message : bool
         then
           message <- py_getitem result "message" ;;
           py_in "content" message
         else Ret false
       else Ret false) ;;
    if negb shaped
    then Ret (None, "UNKNOWN", PStr "Unknown result format")
    else
      message <- py_getitem result "message" ;;
      content <- py_getitem message "content" ;;
      no_defect <- py_in "RESULT: [NO]" content ;;
      if no_defect : bool
      then Ret (None, "NONE", PStr "No defects found")
      else
        is_multiple <- py_in "MULTIPLE DEFECTS: [YES]" content ;;
        text <- as_str content ;;
        let '(defect_line, defect_category, description) :=
          defect_fields is_multiple text in
        Ret (defect_line, defect_category, PStr description).

(** [format_result_message].  [fmt] is what an f-string field makes of a
    value ([str(v)], and a [str] as it is); only its value on a [str] is
    ever relied on. *)
Definition format_result_message (fmt : pyval -> string)
    (module_name : string) (result : pyval) : outcome string :=
  shaped <-
    (if py_truthy result
     then
       has_message <- py_in "message" result ;;
       if has_message : bool
       then
         message <- py_getitem result "message" ;;
         py_in "content" message
       else Ret false
     else Ret false) ;;
  if shaped : bool
  then
    message <- py_getitem result "message" ;;
    content <- py_getitem message "content" ;;
    Ret ("Analysis result for " ++ module_name ++ ": " ++ fmt content)
  else
    has_error <- py_in "error" result ;;
    if has_error : bool
    then
      e <- py_getitem result "error" ;;
      Ret ("Error analyzing " ++ module_name ++ ": " ++ fmt e)
    else
      Ret ("Unknown result format for " ++ module_name ++ ": " ++ fmt result).

(** [os.path.join(base_path, f"{module_name}.v")] *)
Definition build_verilog_path (base_path module_name : string) : string :=
  path_join base_path (module_name ++ ".v").

(** *** The report

    A CSV file is the list of the rows written to it, a row the list of
    the cells handed to [csv.DictWriter] in the order of [fieldnames].
    The files [write_to_csv] can touch are a map from name to contents,
    [None] where there is no file. *)
Definition row : Type := list pyval.
Definition filesystem : Type := string -> option (list row).

Definition fs_write (fs : filesystem) (name : string) (rows : list row)
  : filesystem :=
  fun n => if n =? name then Some rows else fs n.

Definition fs_remove (fs : filesystem) (name : string) : filesystem :=
  fun n => if n =? name then None else fs n.

(** Code that reads and writes those files and may raise. *)
Definition M (A : Type) : Type := filesystem -> outcome A * filesystem.

Definition mret {A} (a : A) : M A := fun fs => (Ret a, fs).

Definition mbind {A B} (c : M A) (f : A -> M B) : M B :=
  fun fs =>
    match c fs with
    | (Ret a, fs') => f a fs'
    | (Raise e, fs') => (Raise e, fs')
    end.

Definition lift {A} (c : outcome A) : M A := fun fs => (c, fs).

(** [os.path.exists(name)] *)
Definition file_exists (name : string) : M bool :=
  fun fs => (Ret (match fs name with Some _ => true | None => false end), fs).

(** [os.remove(name)] of a file that exists *)
Definition remove (name : string) : M unit :=
  fun fs => (Ret tt, fs_remove fs name).

(** [open(name, 'a')] and the [writerow] calls made on it.  Opening is
    taken to succeed, as it does for the report in the working directory,
    the one name the program passes; a name that cannot be opened is not
    covered. *)
Definition append_rows (name : string) (rows : list row) : M unit :=
  fun fs =>
    (Ret tt,
     fs_write fs name
       (match fs name with Some old => old | None => [] end ++ rows)).

Definition fieldnames : list string :=
  ["Level"; "File_Name"; "Defect_Line"; "Defect_Type"; "Defect_Description"].

Definition header : row := map PStr fieldnames.

(** [defect_line if defect_line else 'N/A'] *)
Definition line_cell (defect_line : option string) : string :=
  match defect_line with
  | Some l => if l =? "" then "N/A" else l
  | None => "N/A"
  end.

Definition csv_row (level file_name : string) (defect_line : option string)
    (defect_type : string) (defect_description : pyval) : row :=
  [PStr level; PStr file_name; PStr (line_cell defect_line);
   PStr defect_type; defect_description].

Definition write_to_csv (csv_filename level file_name : string)
    (defect_line : option string) (defect_type : string)
    (defect_description : pyval) : M unit :=
  mbind (file_exists csv_filename) (fun file_exists =>
  append_rows csv_filename
    ((if negb file_exists then [header] else [])
     ++ [csv_row level file_name defect_line defect_type
           defect_description])).

End Utils.

(** ** lintLLM1.py *)

Module LintLLM.
Import PyStr Re Py Utils.
Local Open Scope py_scope.

(** What [requests.post] hands back: the status code and what
    [response.json()] gives when it is called. *)
Record response : Type := Response {
  status_code : Z;
  json : outcome pyval
}.

(** Everything outside the program.  [prompt_rules] is the rules document
    of [build_analysis_prompt] with the reserved words read at start-up
    filled in; it is sent to the endpoint and never looked at again. *)
Record world : Type := World {
  path_exists : string -> bool;               (* os.path.exists *)
  readlines : string -> outcome (list string);(* open(path).readlines() *)
  post : pyval -> outcome response;           (* requests.post, by payload *)
  prompt_rules : string
}.

Definition create_llm_request_data (context : string) : pyval :=
  let think_disable := " /no_think" in
  PDict
    [("model", PStr Config.MODEL_NAME);
     ("messages",
      PList
        [PDict
           [("role", PStr "system");
            ("content",
             PStr "You are a verilog code defect checker and are able to follow the defined rules.")];
         PDict
           [("role", PStr "user");
            ("content", PStr (context ++ think_disable))]]);
     ("max_tokens", PNum Config.MAX_TOKENS);
     ("temperature", PNum Config.TEMPERATURE);
     ("stream", PBool false)].

(** [{"error": msg}] *)
Definition error_value (msg : string) : pyval := PDict [("error", PStr msg)].

Definition send_llm_request (w : world) (context : string) : outcome pyval :=
  let data := create_llm_request_data context in
  try_except
    (response <- post w data ;;
     if (status_code response =? 200)%Z
     then json response
     else Ret (error_value
                 ("Request failed with status code: "
                  ++ str_of_int (status_code response))))
    (fun e =>
       match e with
       | RequestException msg =>
           Ret (error_value ("Network request failed: " ++ msg))
       | _ => Ret (error_value ("Unexpected error: " ++ exc_str e))
       end).

(** [f"{i+1}: {line}"] for each line, [i] counted from [i0] *)
Fixpoint numbered (i0 : Z) (verilog_code_lines : list string) : string :=
  match verilog_code_lines with
  | [] => ""
  | line :: rest =>
      str_of_int (i0 + 1) ++ ": " ++ line ++ numbered (i0 + 1) rest
  end.

Definition build_analysis_prompt (w : world) (module_name : string)
    (verilog_code_lines : list string) : string :=
  let prompt_intro :=
    "The following <code> is the Verilog code for the module named <"
    ++ module_name ++ ">." in
  prompt_intro ++ nl ++ numbered 0 verilog_code_lines
  ++ nl ++ prompt_rules w.

Definition analyze_verilog_module (w : world) (module_name base_path : string)
  : outcome pyval :=
  let verilog_path := build_verilog_path base_path module_name in
  if negb (path_exists w verilog_path)
  then Ret (error_value ("File not found: " ++ verilog_path))
  else
    try_except
      (verilog_code_lines <- readlines w verilog_path ;;
       let context :=
         build_analysis_prompt w module_name verilog_code_lines in
       send_llm_request w context)
      (fun e => Ret (error_value ("File operation failed: " ++ exc_str e))).

(** [n] consecutive integers from [a] on *)
Fixpoint count_from (a : Z) (n : nat) : list Z :=
  match n with
  | O => []
  | S n' => a :: count_from (a + 1) n'
  end.

(** [range(a, b)] *)
Definition range (a b : Z) : list Z := count_from a (Z.to_nat (b - a)).

(** [for x in xs: body x] *)
Fixpoint for_each {A} (xs : list A) (body : A -> M unit) : M unit :=
  match xs with
  | [] => mret tt
  | x :: xs' => mbind (body x) (fun _ => for_each xs' body)
  end.

(** The body of the loop of [process_module_batch].  Timer readings and
    console lines never reach the report and are left out. *)
Definition process_module (w : world) (level module_prefix base_path : string)
    (k : Z) : M unit :=
  let csv_filename := "results.csv" in
  let module_name := module_prefix ++ str_of_int k in
  let file_name := module_name ++ ".v" in
  mbind (lift (analyze_verilog_module w module_name base_path)) (fun result =>
  mbind (lift (parse_llm_result result)) (fun parsed =>
  let '(defect_line, defect_type, defect_description) := parsed in
  write_to_csv csv_filename level file_name defect_line defect_type
    defect_description)).

(** The status [process_module_batch] prints for a module:
    ["DEFECT FOUND" if defect_line else "NO DEFECTS" if defect_type ==
    "NONE" else "ERROR"]. *)
Definition status (defect_line : option string) (defect_type : string)
  : string :=
  match defect_line with
  | Some (String _ _) => "DEFECT FOUND"
  | _ => if defect_type =? "NONE" then "NO DEFECTS" else "ERROR"
  end.

Definition process_module_batch (w : world) (start_idx end_idx : Z)
    (module_prefix base_path : string) : M unit :=
  let level := rstrip_char "_" module_prefix in
  for_each (range start_idx end_idx)
    (process_module w level module_prefix base_path).

Definition main (w : world) : M unit :=
  let csv_filename := "results.csv" in
  mbind (file_exists csv_filename) (fun found =>
  mbind (if found : bool then remove csv_filename else mret tt) (fun _ =>
  for_each (combine Config.PROJECT_PREFIXES Config.FOLDER_NAMES)
    (fun '(prefix, folder) =>
       let base_path := Config.BASE_BENCHMARK_PATH ++ "/" ++ folder in
       process_module_batch w Config.MODULE_START_INDEX
         Config.MODULE_END_INDEX prefix base_path))).

End LintLLM.


Import PyStr Re Py Utils LintLLM.

(** ** Vocabulary of the properties *)

(** [result] is a chat answer in the shape the endpoint documents: a
    [dict] without an ['error'] entry whose ['message'] is a [dict] with
    the [str] [content] under ['content']. *)
Definition carries_content (result : pyval) (content : string) : Prop :=
  exists d m,
    result = PDict d /\
    dict_get "error" d = None /\
    dict_get "message" d = Some (PDict m) /\
    dict_get "content" m = Some (PStr content).

(** The plainest such answer. *)
Definition chat_answer (content : string) : pyval :=
  PDict [("message",
          PDict [("role", PStr "assistant"); ("content", PStr content)])].

(** The longest prefix of [s] inside the class [p]. *)
Fixpoint take_while (p : ascii -> bool) (s : string) : string :=
  match s with
  | String c s' => if p c then String c (take_while p s') else ""
  | "" => ""
  end.

(** The category token standing at the head of [s], read off without a
    pattern: the marker, any white space, one optional opening bracket,
    then the longest run of capitals and underscores, which must not be
    empty. *)
Definition category_token_at (s : string) : option string :=
  if starts_with "DEFECT CATEGORY:" s
  then
    let t := lstrip_by is_space (drop 16 s) in
    let t := match t with
             | String c t' => if Ascii.eqb c "[" then t' else t
             | "" => t
             end in
    match take_while is_upper_or_underscore t with
    | "" => None
    | token => Some token
    end
  else None.

(** The token of the leftmost marker that has one. *)
Fixpoint first_category_token (s : string) : option string :=
  match category_token_at s with
  | Some token => Some token
  | None =>
      match s with
      | String _ s' => first_category_token s'
      | "" => None
      end
  end.




(** The report file. *)
Definition report (fs : filesystem) : option (list row) := fs "results.csv".

(** The files after one more row went to the report: behind the rows
    that are there, or behind a fresh header when there is no report. *)
Definition with_row (fs : filesystem) (r : row) : filesystem :=
  fs_write fs "results.csv"
    (match fs "results.csv" with
     | Some old => (old ++ [r])%list
     | None => [header; r]
     end).

(** A report after some more rows went to it. *)
Definition extend (rep : option (list row)) (rows : list row)
  : option (list row) :=
  match rows with
  | [] => rep
  | _ :: _ =>
      Some ((match rep with Some old => old | None => [header] end)
            ++ rows)%list
  end.

(** Sample surroundings: an endpoint that answers every request with one
    status and one body, over source files that all exist and hold a
    two-line module. *)
Definition answering (status : Z) (body : outcome pyval) : world :=
  {| path_exists := fun _ => true;
     readlines := fun _ => Ret ["module m;" ++ nl; "endmodule" ++ nl];
     post := fun _ => Ret (Response status body);
     prompt_rules := "OUTPUT FORMAT:" |}.

(** Files among which the report of an earlier run is lying about. *)
Definition stale_report : filesystem :=
  fun name =>
    if name =? "results.csv"
    then Some [header;
               [PStr "simple"; PStr "simple_1.v"; PStr "7";
                PStr "PORT_TYPE"; PStr "Old row."]]
    else None.

(** An endpoint nobody listens on. *)
Definition refusing : world :=
  {| path_exists := fun _ => true;
     readlines := fun _ => Ret ["module m;" ++ nl; "endmodule" ++ nl];
     post := fun _ => Raise (RequestException "Connection refused");
     prompt_rules := "OUTPUT FORMAT:" |}.


(** How a run of commands can end. *)
Definition ending (stop : option exc) : outcome unit :=
  match stop with
  | None => Ret tt
  | Some e => Raise e
  end.

(** [c] does nothing to the files but put [rows] into the report, one
    after the other, and then ends as [stop] says, from whatever files it
    starts. *)
Definition writes (c : M unit) (rows : list row) (stop : option exc)
  : Prop :=
  forall fs, c fs = (ending stop, fold_left with_row rows fs).

(** A stand-in for [str(v)] that is right on every [str]. *)
Definition plain_text (v : pyval) : string :=
  match v with
  | PStr s => s
  | _ => "<value>"
  end.

(** An endpoint that answers the first module of the medium batch with a
    content of [null] and every other request with "no defect". *)
Definition stumbling : world :=
  {| path_exists := fun _ => true;
     readlines := fun _ => Ret ["module m;" ++ nl; "endmodule" ++ nl];
     post := fun data =>
       match data with
       | PDict (_ :: (_, PList [_; PDict [_; (_, PStr text)]]) :: _) =>
           if contains "<medium_1>" text
           then Ret (Response 200
                       (Ret (PDict [("message",
                                     PDict [("content", PNone)])])))
           else Ret (Response 200 (Ret (chat_answer "RESULT: [NO]")))
       | _ => Raise (OtherException "bad payload")
       end;
     prompt_rules := "OUTPUT FORMAT:" |}.

(** Source files that exist but cannot be read. *)
Definition unreadable_files : world :=
  {| path_exists := fun _ => true;
     readlines := fun _ => Raise (OtherException "Permission denied");
     post := fun _ => Ret (Response 200 (Ret (chat_answer "RESULT: [NO]")));
     prompt_rules := "OUTPUT FORMAT:" |}.

(** ** Strings *)

Lemma append_nil_r (s : string) : s ++ "" = s.
Proof. induction s; simpl; congruence. Qed.

Lemma append_assoc (a b c : string) : (a ++ b) ++ c = a ++ b ++ c.
Proof. induction a; simpl; congruence. Qed.

Lemma length_append (a b : string) :
  String.length (a ++ b) = String.length a + String.length b.
Proof. induction a; simpl; congruence. Qed.

Lemma starts_with_append (a b : string) : starts_with a (a ++ b) = true.
Proof.
  induction a as [|c a IH]; simpl; [destruct b; reflexivity|].
  now rewrite Ascii.eqb_refl.
Qed.

Lemma starts_with_split (a s : string) :
  starts_with a s = true -> s = a ++ drop (String.length a) s.
Proof.
  revert s; induction a as [|c a IH]; intros s H.
  - destruct s; reflexivity.
  - destruct s as [|c' s]; simpl in H; [discriminate|].
    apply andb_true_iff in H as [Hc H].
    apply Ascii.eqb_eq in Hc; subst c'.
    simpl. f_equal. now apply IH.
Qed.

Lemma drop_append (a b : string) : drop (String.length a) (a ++ b) = b.
Proof. induction a; simpl; [destruct b; reflexivity | assumption]. Qed.

Lemma take_append (a b : string) :
  take (String.length (a ++ b) - String.length b) (a ++ b) = a.
Proof.
  rewrite length_append.
  replace (String.length a + String.length b - String.length b)
    with (String.length a) by lia.
  induction a; simpl; [destruct b; reflexivity | congruence].
Qed.

Lemma length_take (n : nat) (s : string) :
  String.length (take n s) = Nat.min n (String.length s).
Proof.
  revert s; induction n; intros [|c s]; simpl; auto.
Qed.

Lemma all_of_append (p : ascii -> bool) (a b : string) :
  all_of p (a ++ b) = all_of p a && all_of p b.
Proof.
  induction a; simpl; [reflexivity|].
  now rewrite IHa, andb_assoc.
Qed.

Lemma contains_append (key pre t : string) :
  contains key t = true -> contains key (pre ++ t) = true.
Proof.
  intros H; induction pre; simpl; [assumption|].
  rewrite IHpre. apply orb_true_r.
Qed.

Lemma contains_here (key t : string) : contains key (key ++ t) = true.
Proof.
  destruct key; simpl.
  - destruct t; reflexivity.
  - now rewrite Ascii.eqb_refl, starts_with_append.
Qed.

(** [find] reports the leftmost occurrence: nothing starts earlier. *)
Lemma find_step (key : string) (a : ascii) (s : string) (n : nat) :
  find key (String a s) = Some (S n) ->
  starts_with key (String a s) = false /\ find key s = Some n.
Proof.
  change (find key (String a s))
    with (if starts_with key (String a s) then Some 0
          else option_map S (find key s)).
  destruct (starts_with key (String a s)); [discriminate|].
  destruct (find key s); simpl; [|discriminate].
  intros H; split; congruence.
Qed.

Lemma find_here (key t : string) : find key (key ++ t) = Some 0.
Proof.
  destruct (key ++ t) eqn:E; simpl.
  - destruct key; [reflexivity|discriminate].
  - rewrite <- E, starts_with_append. reflexivity.
Qed.

(** ** The matcher *)

Section Repetition.
Variable p : ascii -> bool.
Variable k : string -> option rmatch.

(** A greedy repetition that cannot take the next character hands over. *)
Lemma star_stop (s : string) :
  match s with String c _ => p c = false | "" => True end ->
  star p k s = k s.
Proof. destruct s as [|c s]; simpl; [reflexivity|]. now intros ->. Qed.

(** It runs over a stretch of the class when what follows succeeds. *)
Lemma star_run (w rest : string) (m : rmatch) :
  all_of p w = true -> star p k rest = Some m ->
  star p k (w ++ rest) = Some m.
Proof.
  intros Hw Hrest; induction w as [|c w IH]; simpl in *; [assumption|].
  apply andb_true_iff in Hw as [-> Hw]. now rewrite (IH Hw).
Qed.

(** Whatever it reports, it reports after a stretch of the class. *)
Lemma star_sound (s : string) (m : rmatch) :
  star p k s = Some m ->
  exists w rest, s = w ++ rest /\ all_of p w = true /\ k rest = Some m.
Proof.
  induction s as [|c s IH]; simpl; intros H.
  - exists "", ""; auto.
  - destruct (p c) eqn:Hc.
    + destruct (star p k s) as [m'|] eqn:E.
      * destruct (IH H) as (w & rest & -> & Hw & Hk).
        exists (String c w), rest; simpl; rewrite Hc, Hw.
        repeat split; congruence.
      * exists "", (String c s); auto.
    + exists "", (String c s); auto.
Qed.

(** When the continuation refuses every input that starts inside the
    class, giving characters back never helps: the repetition is a plain
    [lstrip]. *)
Lemma star_lstrip (s : string) :
  (forall c t, p c = true -> k (String c t) = None) ->
  star p k s = k (lstrip_by p s).
Proof.
  intros Hk; induction s as [|c s IH]; simpl; [reflexivity|].
  destruct (p c) eqn:Hc; [|reflexivity].
  rewrite IH. destruct (k (lstrip_by p s)); [reflexivity|]. now apply Hk.
Qed.

Lemma star_lstrip_some (s : string) (m : rmatch) :
  k (lstrip_by p s) = Some m -> star p k s = Some m.
Proof.
  induction s as [|c s IH]; simpl; [auto|].
  destruct (p c); [|auto]. intros H. now rewrite (IH H).
Qed.

Lemma star_lazy_here (s : string) (m : rmatch) :
  k s = Some m -> star_lazy p k s = Some m.
Proof. destruct s; simpl; now intros ->. Qed.

(** A lazy repetition walks on for as long as the continuation refuses. *)
Lemma star_lazy_skip (q : ascii -> bool) (w rest : string) :
  (forall c t, q c = true -> k (String c t) = None) ->
  all_of q w = true -> all_of p w = true ->
  star_lazy p k (w ++ rest) = star_lazy p k rest.
Proof.
  intros Hk; induction w as [|c w IH]; simpl; [reflexivity|].
  intros Hq Hp.
  apply andb_true_iff in Hq as [Hqc Hq].
  apply andb_true_iff in Hp as [Hpc Hp].
  rewrite (Hk c (w ++ rest) Hqc), Hpc. now apply IH.
Qed.

End Repetition.

Lemma length_lstrip_le (p : ascii -> bool) (s : string) :
  String.length (lstrip_by p s) <= String.length s.
Proof.
  induction s as [|c s IH]; simpl; [lia|].
  destruct (p c); simpl; lia.
Qed.

(** What a greedy repetition consumed is the [take_while] of its input. *)
Lemma take_lstrip (p : ascii -> bool) (s : string) :
  take (String.length s - String.length (lstrip_by p s)) s = take_while p s.
Proof.
  induction s as [|c s IH]; [reflexivity|].
  cbn [lstrip_by take_while]. destruct (p c) eqn:Hc.
  - pose proof (length_lstrip_le p s).
    cbn [String.length].
    replace (S (String.length s) - String.length (lstrip_by p s))
      with (S (String.length s - String.length (lstrip_by p s))) by lia.
    cbn [take]. now rewrite IH.
  - now rewrite Nat.sub_diag.
Qed.

Lemma search_here (r : regex) (s : string) (m : rmatch) :
  match_at r s = Some m -> search r s = Some m.
Proof. destruct s; simpl; now intros ->. Qed.

Lemma search_cons (r : regex) (c : ascii) (s : string) :
  search r (String c s)
  = match match_at r (String c s) with
    | Some m => Some m
    | None => search r s
    end.
Proof. reflexivity. Qed.

Lemma match_at_literal (key : string) (r : regex) (s : string) :
  match_at (Str key +++ r) s
  = if starts_with key s
    then match_at r (drop (String.length key) s)
    else None.
Proof. reflexivity. Qed.

(** A pattern that opens with a literal is looked for from the leftmost
    occurrence of the literal on. *)
Lemma search_past (key : string) (r : regex) (pre t : string) :
  find key (pre ++ t) = Some (String.length pre) ->
  search (Str key +++ r) (pre ++ t) = search (Str key +++ r) t.
Proof.
  induction pre as [|a pre IH]; [reflexivity|].
  change (String a pre ++ t) with (String a (pre ++ t)).
  cbn [String.length]. intros H. apply find_step in H as [Hno H].
  now rewrite search_cons, match_at_literal, Hno, (IH H).
Qed.

Lemma search_sound (r : regex) (s : string) (m : rmatch) :
  search r s = Some m -> exists pre t, s = pre ++ t /\ match_at r t = Some m.
Proof.
  induction s as [|c s IH].
  - change (search r "")
      with (match match_at r "" with Some m => Some m | None => None end).
    destruct (match_at r "") eqn:E; [|discriminate].
    intros H; exists "", ""; split; [reflexivity|congruence].
  - rewrite search_cons.
    destruct (match_at r (String c s)) eqn:E.
    + intros H; exists "", (String c s); split; [reflexivity|congruence].
    + intros H. destruct (IH H) as (pre & t & -> & Ht).
      exists (String c pre), t; auto.
Qed.

(** A match anywhere makes the search succeed. *)
Lemma search_complete (r : regex) (pre t : string) (m : rmatch) :
  match_at r t = Some m -> search r (pre ++ t) <> None.
Proof.
  intros Ht; induction pre as [|c pre IH].
  - change ("" ++ t) with t. rewrite (search_here _ _ _ Ht). discriminate.
  - change (String c pre ++ t) with (String c (pre ++ t)).
    rewrite search_cons.
    destruct (match_at r (String c (pre ++ t))); [discriminate|assumption].
Qed.

(** ** The patterns of [parse_llm_result] *)

(** A marker, white space, and a bracketed run of a class that excludes
    the closing bracket: group 1 is the run. *)
Lemma bracketed_match (key : string) (p : ascii -> bool)
    (ws n post : string) :
  all_of is_space ws = true -> all_of p n = true -> n <> "" ->
  p "]"%char = false ->
  match_at
    (Str key +++ Star is_space +++ lit "[" +++ Group (Plus p) +++ lit "]")
    (key ++ ws ++ "[" ++ n ++ "]" ++ post)
  = Some (Some n, post).
Proof.
  intros Hws Hn Hne Hp.
  rewrite match_at_literal, starts_with_append, drop_append.
  unfold match_at. cbn [exec].
  apply star_run; [assumption|].
  rewrite star_stop by reflexivity.
  destruct n as [|c n]; [congruence|].
  cbn [all_of] in Hn. apply andb_true_iff in Hn as [Hc Hn].
  cbn [append exec lit]. rewrite Ascii.eqb_refl, Hc.
  apply star_run; [assumption|].
  rewrite star_stop by exact Hp.
  cbn [exec]. rewrite Ascii.eqb_refl.
  change (String c (n ++ String "]" post))
    with (String c n ++ String "]" post).
  now rewrite take_append.
Qed.

(** Conversely a match of such a pattern sits on a marker of that form. *)
Lemma bracketed_sound (key : string) (p : ascii -> bool)
    (t : string) (m : rmatch) :
  match_at
    (Str key +++ Star is_space +++ lit "[" +++ Group (Plus p) +++ lit "]") t
  = Some m ->
  exists ws n post,
    t = key ++ ws ++ "[" ++ n ++ "]" ++ post /\
    all_of is_space ws = true /\ all_of p n = true /\ n <> "".
Proof.
  rewrite match_at_literal.
  destruct (starts_with key t) eqn:Hkey; [|discriminate].
  apply starts_with_split in Hkey.
  remember (drop (String.length key) t) as u eqn:Hu; clear Hu; subst t.
  unfold match_at. cbn [exec]. intros H.
  apply star_sound in H as (ws & rest & -> & Hws & H).
  destruct rest as [|b rest]; [discriminate|].
  cbn [exec lit] in H.
  destruct (Ascii.eqb_spec "[" b) as [<-|]; [|discriminate].
  destruct rest as [|c rest]; [discriminate|].
  destruct (p c) eqn:Hc; [|discriminate].
  apply star_sound in H as (n & rest' & -> & Hn & H).
  destruct rest' as [|e post]; [discriminate|].
  cbn [exec] in H.
  destruct (Ascii.eqb_spec "]" e) as [<-|]; [|discriminate].
  exists ws, (String c n), post.
  split; [reflexivity|]. split; [assumption|]. split; [|discriminate].
  cbn [all_of]. now rewrite Hc, Hn.
Qed.

Lemma space_not_bracket (c : ascii) :
  is_space c = true -> Ascii.eqb "[" c = false.
Proof.
  destruct c as [[] [] [] [] [] [] [] []]; vm_compute; congruence.
Qed.

Lemma space_not_capital (c : ascii) :
  is_space c = true -> is_upper_or_underscore c = false.
Proof.
  destruct c as [[] [] [] [] [] [] [] []]; vm_compute; congruence.
Qed.

Lemma all_of_any (s : string) : all_of any_char s = true.
Proof. induction s; simpl; auto. Qed.

(** The tail of the category pattern from the group on: the token is the
    longest run of the class, and the optional closing bracket never makes
    the match fail. *)
Lemma category_group (v : string) :
  option_map group1
    (exec (Group (Plus is_upper_or_underscore) +++ Opt (Ascii.eqb "]")) v None
       (fun s' g => Some (g, s')))
  = match take_while is_upper_or_underscore v with
    | "" => None
    | token => Some token
    end.
Proof.
  destruct v as [|c r]; [reflexivity|].
  cbn [exec take_while].
  destruct (is_upper_or_underscore c) eqn:Hc; [|reflexivity].
  pose proof (take_lstrip is_upper_or_underscore (String c r)) as Htake.
  cbn [lstrip_by take_while] in Htake. rewrite Hc in Htake.
  set (k := fun t : string => _).
  assert (Hk : forall t, exists rest,
             k t = Some (Some (take (String.length (String c r)
                                     - String.length t) (String c r)), rest)).
  { intros t. unfold k. destruct t as [|e t]; [eexists; reflexivity|].
    destruct (Ascii.eqb "]" e); eexists; reflexivity. }
  destruct (Hk (lstrip_by is_upper_or_underscore r)) as (rest & Hrest).
  rewrite (star_lstrip_some _ _ _ _ Hrest).
  cbn [option_map group1 fst]. now rewrite Htake.
Qed.

Lemma exec_star (p : ascii -> bool) (r : regex) (s : string)
    (g : option string) (k : string -> option string -> option rmatch) :
  exec (Star p +++ r) s g k = star p (fun s' => exec r s' g k) s.
Proof. reflexivity. Qed.

Lemma exec_opt (p : ascii -> bool) (r : regex) (s : string)
    (g : option string) (k : string -> option string -> option rmatch) :
  exec (Opt p +++ r) s g k
  = match s with
    | String c s' =>
        if p c
        then match exec r s' g k with
             | Some m => Some m
             | None => exec r s g k
             end
        else exec r s g k
    | "" => exec r s g k
    end.
Proof. destruct s; reflexivity. Qed.

(** At one position the category pattern finds what the direct reading
    finds. *)
Lemma category_match_at (s : string) :
  option_map group1 (match_at category_re s) = category_token_at s.
Proof.
  unfold category_re, category_token_at. rewrite match_at_literal.
  destruct (starts_with "DEFECT CATEGORY:" s); [|reflexivity].
  change (String.length "DEFECT CATEGORY:") with 16.
  generalize (drop 16 s); intros u.
  unfold match_at. rewrite exec_star, star_lstrip.
  - rewrite exec_opt.
    destruct (lstrip_by is_space u) as [|c t] eqn:Hu.
    + exact (category_group "").
    + rewrite (Ascii.eqb_sym c "[").
      destruct (Ascii.eqb "[" c) eqn:Hb.
      * apply Ascii.eqb_eq in Hb; subst c.
        rewrite <- category_group.
        destruct (exec _ t None _); reflexivity.
      * exact (category_group (String c t)).
  - intros c t Hc.
    rewrite exec_opt, (space_not_bracket c Hc). cbn [exec].
    now rewrite (space_not_capital c Hc).
Qed.

Lemma category_search (s : string) :
  option_map group1 (search category_re s) = first_category_token s.
Proof.
  induction s as [|c s IH].
  - change (search category_re "")
      with (match match_at category_re "" with
            | Some m => Some m
            | None => None
            end).
    reflexivity.
  - rewrite search_cons. cbn [first_category_token].
    rewrite <- (category_match_at (String c s)), <- IH.
    destruct (match_at category_re (String c s)); reflexivity.
Qed.

(** The description pattern on a marker followed by a line that opens
    with a character other than white space: group 1 is the line. *)
Lemma description_match (ws : string) (c : ascii) (b rest : string) :
  all_of is_space ws = true -> is_space c = false ->
  all_of not_newline (String c b) = true ->
  rest = "" \/ (exists r, rest = String newline r) ->
  option_map group1
    (match_at description_re ("DESCRIPTION:" ++ ws ++ String c b ++ rest))
  = Some (String c b).
Proof.
  intros Hws Hc Hb Hrest.
  unfold description_re.
  rewrite match_at_literal, starts_with_append, drop_append.
  unfold match_at. rewrite exec_star.
  cbn [all_of] in Hb. apply andb_true_iff in Hb as [_ Hb].
  match goal with
  | |- option_map group1 (star _ ?K _) = _ =>
      assert (HK : exists rest',
                 K (String c b ++ rest) = Some (Some (String c b), rest'))
  end.
  { cbn [exec append any_char].
    rewrite (star_lazy_skip _ _ not_newline); [|clear|assumption|apply all_of_any].
    - destruct Hrest as [->|(r & ->)]; eexists; apply star_lazy_here;
        cbv beta;
        match goal with
        | |- context [String c (b ++ ?u)] =>
            change (String c (b ++ u)) with (String c b ++ u);
            rewrite take_append
        end; reflexivity.
    - intros a t Ha. unfold not_newline in Ha.
      apply negb_true_iff in Ha.
      cbn [exec lit]. rewrite (Ascii.eqb_sym newline a), Ha.
      destruct t; reflexivity. }
  destruct HK as (rest' & HK).
  rewrite (star_run _ _ _ _ (Some (String c b), rest'));
    [reflexivity|assumption|].
  rewrite star_stop; [exact HK|exact Hc].
Qed.

(** ** The interpreter on a chat answer *)

Lemma parse_content (result : pyval) (content : string) :
  carries_content result content ->
  parse_llm_result result
  = if contains "RESULT: [NO]" content
    then Ret (None, "NONE", PStr "No defects found")
    else
      let '(defect_line, defect_category, description) :=
        defect_fields (contains "MULTIPLE DEFECTS: [YES]" content) content in
      Ret (defect_line, defect_category, PStr description).
Proof.
  intros (d & m & -> & He & Hm & Hc).
  assert (Ht : py_truthy (PDict d) = true)
    by (destruct d; [discriminate|reflexivity]).
  unfold parse_llm_result, py_in, py_getitem, bind, as_str.
  rewrite He, Ht, Hm, Hc. cbv beta iota.
  destruct (contains "RESULT: [NO]" content); reflexivity.
Qed.

Lemma chat_answer_carries (content : string) :
  carries_content (chat_answer content) content.
Proof.
  eexists _, _; repeat split; reflexivity.
Qed.


Lemma first_category_token_nonempty (s token : string) :
  first_category_token s = Some token -> token <> "".
Proof.
  assert (Hat : forall u, category_token_at u = Some token -> token <> "").
  { intros u. unfold category_token_at.
    destruct (starts_with _ u); [|discriminate].
    destruct (take_while _ _); [discriminate|]. intros [= <-]. discriminate. }
  induction s as [|c s IH]; cbn [first_category_token].
  - destruct (category_token_at "") eqn:E; [|discriminate].
    intros [= <-]. eauto.
  - destruct (category_token_at (String c s)) eqn:E; [|assumption].
    intros [= <-]. eauto.
Qed.

Lemma rstrip_keeps_head (p : ascii -> bool) (c : ascii) (s : string) :
  p c = false -> exists t, rstrip_by p (String c s) = String c t.
Proof.
  intros Hc. cbn [rstrip_by]. rewrite Hc.
  destruct (rstrip_by p s); eexists; reflexivity.
Qed.

Lemma length_cap100 (d : string) : String.length (cap100 d) <= 100.
Proof.
  unfold cap100. destruct (100 <? String.length d)%nat eqn:E.
  - apply Nat.ltb_lt in E. rewrite length_append, length_take.
    change (String.length "...") with 3. lia.
  - apply Nat.ltb_ge in E. exact E.
Qed.

Lemma cap100_long (d : string) :
  100 < String.length d ->
  cap100 d = take 97 d ++ "..." /\ String.length (cap100 d) = 100.
Proof.
  intros H. unfold cap100.
  destruct (Nat.ltb_spec 100 (String.length d)); [|lia].
  split; [reflexivity|]. rewrite length_append, length_take.
  change (String.length "...") with 3. lia.
Qed.




(** ** Properties of the interpreter *)

(** C9.  A chat answer whose content holds the literal [RESULT: [NO]] is
    interpreted as [(None, "NONE", "No defects found")], whatever defect
    markers the content holds besides. *)
Theorem no_defect_marker_takes_precedence
    (result : pyval) (content : string) :
  carries_content result content ->
  contains "RESULT: [NO]" content = true ->
  parse_llm_result result = Ret (None, "NONE", PStr "No defects found").
Proof.
  intros Hc Hno. now rewrite (parse_content _ _ Hc), Hno.
Qed.

Lemma no_defect_marker_takes_precedence_witness :
  parse_llm_result
    (chat_answer
       ("RESULT: [NO]" ++ nl ++ "DEFECT LINE: [12]" ++ nl
        ++ "DEFECT CATEGORY: [PORT_TYPE]"))
  = Ret (None, "NONE", PStr "No defects found").
Proof.
  apply (no_defect_marker_takes_precedence _ _ (chat_answer_carries _)).
  reflexivity.
Defined.






(** C10.  A chat answer whose content holds [MULTIPLE DEFECTS: [YES]] but
    nowhere [ALL DEFECT LINES:], white space, and a bracketed non-empty
    run of digits and hyphens, is interpreted with [defect_line = None],
    also when the content holds a single-defect marker
    [DEFECT LINE: [n]]. *)
Theorem multiple_defects_without_list_has_no_line
    (result : pyval) (content : string) :
  carries_content result content ->
  contains "MULTIPLE DEFECTS: [YES]" content = true ->
  (forall pre ws l post,
      all_of is_space ws = true -> l <> "" ->
      all_of is_digit_or_hyphen l = true ->
      content <> pre ++ "ALL DEFECT LINES:" ++ ws ++ "[" ++ l ++ "]" ++ post) ->
  exists category description,
    parse_llm_result result = Ret (None, category, description).
Proof.
  intros Hc Hmulti Hnone.
  rewrite (parse_content _ _ Hc), Hmulti.
  destruct (contains "RESULT: [NO]" content); [eexists _, _; reflexivity|].
  unfold defect_fields.
  destruct (search all_lines_re content) as [m|] eqn:E.
  - exfalso.
    apply search_sound in E as (pre & t & -> & E).
    apply bracketed_sound in E as (ws & l & post & -> & Hws & Hl & Hne).
    exact (Hnone pre ws l post Hws Hne Hl eq_refl).
  - cbn [option_map]. eexists _, _; reflexivity.
Qed.

Lemma multiple_defects_without_list_has_no_line_witness :
  exists category description,
    parse_llm_result
      (chat_answer
         ("RESULT: [YES]" ++ nl ++ "MULTIPLE DEFECTS: [YES]" ++ nl
          ++ "DEFECT LINE: [12]" ++ nl ++ "ALL DEFECT LINES: 3-5-12"))
    = Ret (None, category, description).
Proof.
  apply (multiple_defects_without_list_has_no_line _ _
           (chat_answer_carries _)).
  - reflexivity.
  - intros pre ws l post Hws Hne Hl Heq.
    refine (search_complete all_lines_re pre _ (Some l, post) _ _).
    + exact (bracketed_match "ALL DEFECT LINES:" is_digit_or_hyphen
               ws l post Hws Hl Hne eq_refl).
    + rewrite <- Heq. reflexivity.
Defined.

(** C7, as the code has it.  For a chat answer without the no-defect
    marker, the category is the token of the leftmost [DEFECT CATEGORY:]
    marker that has one, a token being the longest run of capital letters
    [A-Z] and underscores that follows the marker after any white space
    and one optional opening bracket; with no such token in the content
    the category is ["UNKNOWN"]. *)
Theorem category_is_first_capital_token
    (result : pyval) (content : string) :
  carries_content result content ->
  contains "RESULT: [NO]" content = false ->
  exists defect_line description,
    parse_llm_result result
    = Ret (defect_line,
           match first_category_token content with
           | Some token => token
           | None => "UNKNOWN"
           end,
           description).
Proof.
  intros Hc Hno.
  rewrite (parse_content _ _ Hc), Hno.
  unfold defect_fields.
  set (lines := if contains "MULTIPLE DEFECTS: [YES]" content then _ else _).
  destruct lines as [defect_line main_line].
  rewrite category_search.
  destruct (first_category_token content) as [token|] eqn:E.
  - apply first_category_token_nonempty in E.
    destruct (String.eqb_spec token ""); [contradiction|].
    eexists _, _; reflexivity.
  - eexists _, _; reflexivity.
Qed.

Lemma category_is_first_capital_token_witness :
  exists defect_line description,
    parse_llm_result
      (chat_answer
         ("RESULT: [YES]" ++ nl ++ "DEFECT CATEGORY: none given" ++ nl
          ++ "DEFECT CATEGORY:  RACE_HAZARD]"))
    = Ret (defect_line, "RACE_HAZARD", description).
Proof.
  exact (category_is_first_capital_token _
           ("RESULT: [YES]" ++ nl ++ "DEFECT CATEGORY: none given" ++ nl
            ++ "DEFECT CATEGORY:  RACE_HAZARD]")
           (chat_answer_carries _) eq_refl).
Defined.

(** C7 as stated fails on both counts: a token of lower-case letters
    after the marker is not taken as the category and a mixed-case one is
    cut at its first lower-case letter; and with the no-defect marker and
    no token at all the category is ["NONE"], not ["UNKNOWN"]. *)
Lemma category_letters_counterexample :
  parse_llm_result (chat_answer "DEFECT CATEGORY: [port_type]")
  = Ret (None, "UNKNOWN", PStr "")
  /\ parse_llm_result (chat_answer "DEFECT CATEGORY: [Port_Type]")
     = Ret (None, "P", PStr "")
  /\ parse_llm_result (chat_answer "RESULT: [NO]")
     = Ret (None, "NONE", PStr "No defects found").
Proof. repeat split; vm_compute; reflexivity. Qed.

(** C1, as the code has it.  When the leftmost [DESCRIPTION:] marker of a
    chat answer without the no-defect marker is followed, after any white
    space, by a line that opens with a character other than white space,
    the description is that line stripped and then: cut after its first
    full stop when it has one, however far in that is; otherwise cut to
    its first 97 characters plus ["..."] when it is longer than 100, and
    left as it is when not.  So without a full stop the description has
    at most 100 characters, and exactly 100 when it was cut. *)
Theorem structured_description_truncation
    (result : pyval) (content pre ws : string) (c : ascii)
    (line rest : string) :
  carries_content result content ->
  contains "RESULT: [NO]" content = false ->
  content = pre ++ "DESCRIPTION:" ++ ws ++ String c line ++ rest ->
  find "DESCRIPTION:" content = Some (String.length pre) ->
  all_of is_space ws = true -> is_space c = false ->
  all_of not_newline (String c line) = true ->
  rest = "" \/ (exists r, rest = String newline r) ->
  let d := strip (String c line) in
  exists defect_line category description,
    parse_llm_result result = Ret (defect_line, category, PStr description)
    /\ description
       = (if contains "." d then split_head "." d ++ "." else cap100 d)
    /\ (contains "." d = false -> String.length description <= 100)
    /\ (contains "." d = false -> 100 < String.length d ->
        description = take 97 d ++ "..."
        /\ String.length description = 100).
Proof.
  intros Hc Hno -> Hfind Hws Hsp Hline Hrest d.
  rewrite (parse_content _ _ Hc), Hno.
  unfold defect_fields.
  set (lines := if contains "MULTIPLE DEFECTS: [YES]" _ then _ else _).
  destruct lines as [defect_line main_line].
  assert (Hd : exists t, d = String c t).
  { unfold d, strip. cbn [lstrip_by]. rewrite Hsp.
    now apply rstrip_keeps_head. }
  assert (Hs : structured_description
                 (pre ++ "DESCRIPTION:" ++ ws ++ String c line ++ rest)
               = if contains "." d then split_head "." d ++ "."
                 else cap100 d).
  { unfold structured_description, description_re.
    rewrite search_past by exact Hfind.
    pose proof (description_match ws c line rest Hws Hsp Hline Hrest) as Hm.
    unfold description_re in Hm.
    destruct (match_at _ _) as [m|] eqn:E; [|discriminate].
    rewrite (search_here _ _ _ E).
    cbn [option_map] in Hm. injection Hm as ->. reflexivity. }
  rewrite Hs.
  assert (Hne : ((if contains "." d then split_head "." d ++ "."
                  else cap100 d) =? "") = false).
  { destruct Hd as (t & Hd).
    destruct (contains "." d).
    - destruct (split_head "." d); reflexivity.
    - rewrite Hd. unfold cap100.
      destruct (100 <? String.length (String c t))%nat; reflexivity. }
  rewrite Hne.
  eexists _, _, _; split; [reflexivity|]. split; [reflexivity|].
  split.
  - intros ->. apply length_cap100.
  - intros -> Hlong. now apply cap100_long.
Qed.

Lemma structured_description_truncation_witness :
  let line :=
    "The output port data_out is declared as reg but driven by a continuous assign statement in the module body and never reset" in
  let d := strip line in
  exists defect_line category description,
    parse_llm_result
      (chat_answer ("RESULT: [YES]" ++ nl ++ "DESCRIPTION: " ++ line ++ nl
                    ++ "more"))
    = Ret (defect_line, category, PStr description)
    /\ description
       = (if contains "." d then split_head "." d ++ "." else cap100 d)
    /\ (contains "." d = false -> String.length description <= 100)
    /\ (contains "." d = false -> 100 < String.length d ->
        description = take 97 d ++ "..."
        /\ String.length description = 100).
Proof.
  refine (structured_description_truncation
            (chat_answer _)
            ("RESULT: [YES]" ++ nl ++ "DESCRIPTION: "
             ++ "The output port data_out is declared as reg but driven by a continuous assign statement in the module body and never reset"
             ++ nl ++ "more")
            ("RESULT: [YES]" ++ nl) " " "T"
            "he output port data_out is declared as reg but driven by a continuous assign statement in the module body and never reset"
            (nl ++ "more")
            (chat_answer_carries _) _ _ _ _ _ _ _);
    try reflexivity.
  right. exists "more". reflexivity.
Defined.

(** C1 as stated fails: a description whose first full stop comes after
    more than 100 characters is kept up to that full stop, here all 124
    characters of it. *)
Lemma long_sentence_counterexample :
  let sentence :=
    "The output port data_out is declared as reg but is driven by a continuous assign statement in the module body of the design." in
  parse_llm_result
    (chat_answer ("RESULT: [YES]" ++ nl ++ "DESCRIPTION: " ++ sentence))
  = Ret (None, "UNKNOWN", PStr sentence)
  /\ String.length sentence = 124.
Proof. split; vm_compute; reflexivity. Qed.

(** ** The inference client *)

(** C2, as the code has it.  For every HTTP response received,
    [send_llm_request] hands back the decoded body when the status code is
    exactly 200 and the body decodes; every other status code, the other
    2xx codes included, gives [{"error": "Request failed with status code:
    <code>"}]; a 200 answer whose body does not decode gives an error value
    too; in no case does an exception leave the function. *)
Theorem send_llm_request_by_status
    (w : world) (context : string) (r : response) :
  post w (create_llm_request_data context) = Ret r ->
  (status_code r = 200%Z ->
   forall body, json r = Ret body -> send_llm_request w context = Ret body)
  /\ (status_code r <> 200%Z ->
      send_llm_request w context
      = Ret (error_value ("Request failed with status code: "
                          ++ str_of_int (status_code r))))
  /\ (status_code r = 200%Z ->
      forall e, json r = Raise e ->
      exists msg, send_llm_request w context = Ret (error_value msg))
  /\ exists v, send_llm_request w context = Ret v.
Proof.
  intros Hpost. unfold send_llm_request. rewrite Hpost. cbn [bind].
  destruct (Z.eqb_spec (status_code r) 200) as [H200|Hnot].
  - repeat split; try congruence.
    + now intros _ body ->.
    + intros _ e ->. destruct e; eexists; reflexivity.
    + destruct (json r) as [v|e]; [|destruct e]; eexists; reflexivity.
  - repeat split; try congruence.
    eexists; reflexivity.
Qed.

Lemma send_llm_request_by_status_witness :
  send_llm_request
    (answering 200 (Ret (chat_answer "RESULT: [NO]"))) "prompt"
  = Ret (chat_answer "RESULT: [NO]")
  /\ send_llm_request (answering 404 (Raise (OtherException "no body")))
       "prompt"
     = Ret (error_value "Request failed with status code: 404").
Proof.
  split.
  - refine (proj1 (send_llm_request_by_status
                     (answering 200 (Ret (chat_answer "RESULT: [NO]")))
                     "prompt" _ eq_refl) eq_refl _ eq_refl).
  - refine (proj1 (proj2 (send_llm_request_by_status
                     (answering 404 (Raise (OtherException "no body")))
                     "prompt" _ eq_refl)) _).
    discriminate.
Defined.

(** C2 as stated fails: status 201 is a 2xx code, the body decodes, and
    what comes back is the error value, not the body. *)
Lemma created_status_counterexample :
  let body := chat_answer "RESULT: [NO]" in
  let w := answering 201 (Ret body) in
  post w (create_llm_request_data "prompt") = Ret (Response 201 (Ret body))
  /\ (200 <= 201 < 300)%Z
  /\ send_llm_request w "prompt"
     = Ret (error_value "Request failed with status code: 201")
  /\ send_llm_request w "prompt" <> Ret body.
Proof.
  repeat split; try reflexivity; try lia. discriminate.
Qed.

(** C6.  Whenever the client does not get a 200 answer with a body that
    decodes (the request raised, as on a refused connection, the status
    is another one, or decoding raised), it hands back an error value
    with a non-empty message, the interpreter turns that value into
    [(None, "ERROR", message)], and neither step raises.  For a transport
    failure the message is ["Network request failed: "] followed by the
    text of the exception. *)
Theorem client_failure_becomes_error_record
    (w : world) (context : string) :
  (forall r body,
      post w (create_llm_request_data context) = Ret r ->
      status_code r = 200%Z -> json r <> Ret body) ->
  exists msg,
    send_llm_request w context = Ret (error_value msg)
    /\ msg <> ""
    /\ parse_llm_result (error_value msg) = Ret (None, "ERROR", PStr msg)
    /\ (forall text,
          post w (create_llm_request_data context)
          = Raise (RequestException text) ->
          msg = "Network request failed: " ++ text).
Proof.
  intros Hfail. unfold send_llm_request.
  destruct (post w (create_llm_request_data context)) as [r|e] eqn:Hpost.
  - cbn [bind].
    destruct (Z.eqb_spec (status_code r) 200) as [H200|Hnot].
    + destruct (json r) as [body|e] eqn:Hjson.
      * exfalso. exact (Hfail r body eq_refl H200 Hjson).
      * destruct e; eexists; (split; [reflexivity|]);
          (split; [discriminate|]); (split; [reflexivity|discriminate]).
    + eexists; split; [reflexivity|]. split; [discriminate|].
      split; [reflexivity|discriminate].
  - destruct e; eexists; (split; [reflexivity|]);
      (split; [discriminate|]); (split; [reflexivity|]);
      intros text [= <-] || discriminate; reflexivity.
Qed.

Lemma client_failure_becomes_error_record_witness :
  exists msg,
    send_llm_request refusing "prompt" = Ret (error_value msg)
    /\ msg <> ""
    /\ parse_llm_result (error_value msg) = Ret (None, "ERROR", PStr msg)
    /\ (forall text,
          post refusing (create_llm_request_data "prompt")
          = Raise (RequestException text) ->
          msg = "Network request failed: " ++ text).
Proof.
  apply (client_failure_becomes_error_record refusing "prompt").
  intros r body H. discriminate H.
Defined.

(** ** The batch runner *)

Lemma count_from_app (a : Z) (n1 n2 : nat) :
  count_from a (n1 + n2)
  = (count_from a n1 ++ count_from (a + Z.of_nat n1) n2)%list.
Proof.
  revert a; induction n1 as [|n1 IH]; intros a.
  - simpl. now rewrite Z.add_0_r.
  - cbn [Nat.add count_from app]. rewrite IH. do 3 f_equal. lia.
Qed.

Lemma range_split (a k b : Z) :
  (a <= k < b)%Z -> range a b = (range a k ++ k :: range (k + 1) b)%list.
Proof.
  intros H. unfold range.
  replace (Z.to_nat (b - a))
    with (Z.to_nat (k - a) + S (Z.to_nat (b - (k + 1)))) by lia.
  rewrite count_from_app. cbn [count_from].
  replace (a + Z.of_nat (Z.to_nat (k - a)))%Z with k by lia.
  reflexivity.
Qed.

Lemma for_each_app {A : Type} (xs ys : list A) (body : A -> M unit)
    (fs : filesystem) :
  for_each (xs ++ ys) body fs
  = match for_each xs body fs with
    | (Ret _, fs1) => for_each ys body fs1
    | (Raise e, fs1) => (Raise e, fs1)
    end.
Proof.
  revert fs; induction xs as [|x xs IH]; intros fs; [reflexivity|].
  cbn [app for_each]. unfold mbind.
  destruct (body x fs) as [[[]|e] fs1]; [apply IH|reflexivity].
Qed.

(** One call of [write_to_csv] on the report puts one row there. *)
Lemma write_to_csv_row (level file_name : string)
    (defect_line : option string) (defect_type : string)
    (defect_description : pyval) (fs : filesystem) :
  write_to_csv "results.csv" level file_name defect_line defect_type
    defect_description fs
  = (Ret tt,
     with_row fs
       (csv_row level file_name defect_line defect_type defect_description)).
Proof.
  unfold write_to_csv, mbind, file_exists, append_rows, with_row.
  destruct (fs "results.csv"); cbn [negb]; reflexivity.
Qed.

Lemma report_with_row (fs : filesystem) (r : row) :
  report (with_row fs r) = extend (report fs) [r].
Proof.
  unfold report, with_row, fs_write, extend.
  rewrite String.eqb_refl. destruct (fs "results.csv"); reflexivity.
Qed.

Lemma extend_app (rep : option (list row)) (a b : list row) :
  extend (extend rep a) b = extend rep (a ++ b).
Proof.
  destruct a as [|x a]; [reflexivity|].
  destruct b as [|y b]; cbn [extend app].
  - now rewrite app_nil_r.
  - now rewrite <- app_assoc.
Qed.

(** What [analyze_verilog_module] hands back is an error value of its own
    or of the client's making, or the body of a 200 answer. *)
Lemma analyze_verilog_module_cases (w : world)
    (module_name base_path : string) :
  exists v,
    analyze_verilog_module w module_name base_path = Ret v
    /\ ((exists msg, v = error_value msg)
        \/ (exists data r,
               post w data = Ret r /\ status_code r = 200%Z
               /\ json r = Ret v)).
Proof.
  unfold analyze_verilog_module.
  destruct (path_exists w _); cbn [negb];
    [|eexists; split; [reflexivity|left; eexists; reflexivity]].
  destruct (readlines w _) as [lines|e]; cbn [bind try_except];
    [|eexists; split; [reflexivity|left; eexists; reflexivity]].
  unfold send_llm_request.
  destruct (post w _) as [r|e] eqn:Hpost; cbn [bind try_except].
  - destruct (Z.eqb_spec (status_code r) 200) as [H200|Hnot].
    + destruct (json r) as [v|e] eqn:Hjson.
      * exists v; split; [reflexivity|right]. eauto.
      * destruct e; eexists; (split; [reflexivity|left; eexists; reflexivity]).
    + eexists; split; [reflexivity|left; eexists; reflexivity].
  - destruct e; eexists; (split; [reflexivity|left; eexists; reflexivity]).
Qed.








(** C5 does not hold of the code.  A 200 answer whose content is [null]
    passes the shape test of [parse_llm_result], which then raises a
    [TypeError] on the no-defect test; [process_module_batch] calls the
    interpreter outside any [try], so the run ends at the first module
    with the old report removed and no row written, where the claim has
    a header and 90 rows. *)
Lemma unreadable_answer_stops_run :
  let w := answering 200
             (Ret (PDict [("message", PDict [("content", PNone)])])) in
  fst (main w stale_report) = Raise (TypeError "argument is not iterable")
  /\ report (snd (main w stale_report)) = None.
Proof. split; vm_compute; reflexivity. Qed.

(** ** More on the interpreter *)

Ltac split_outcome :=
  match goal with
  | |- context [match ?x with Ret _ => _ | Raise _ => _ end] =>
      destruct x as [?|?] eqn:?
  | |- context [if ?b then _ else _] => destruct b eqn:?
  | |- context [match ?x with (_, _) => _ end] => destruct x as [? ?] eqn:?
  end.

(** Where a record of the interpreter can come from. *)
Lemma parse_llm_result_cases (result : pyval) (record : defect_record) :
  parse_llm_result result = Ret record ->
  (exists e, record = (None, "ERROR", e))
  \/ record = (None, "UNKNOWN", PStr "Unknown result format")
  \/ record = (None, "NONE", PStr "No defects found")
  \/ (exists is_multiple content,
         record = (fst (fst (defect_fields is_multiple content)),
                   snd (fst (defect_fields is_multiple content)),
                   PStr (snd (defect_fields is_multiple content)))).
Proof.
  unfold parse_llm_result, bind.
  repeat split_outcome; try discriminate; intros [= <-]; eauto.
  all: right; right; right;
    match goal with
    | H : defect_fields ?m ?c = _ |- _ => exists m, c; now rewrite H
    end.
Qed.

Lemma defect_fields_line (is_multiple : bool) (content : string) :
  fst (fst (defect_fields is_multiple content))
  = option_map group1
      (search (if is_multiple then all_lines_re else defect_line_re) content).
Proof.
  unfold defect_fields. destruct is_multiple; [reflexivity|].
  destruct (search defect_line_re content); reflexivity.
Qed.

Lemma defect_fields_category (is_multiple : bool) (content : string) :
  snd (fst (defect_fields is_multiple content))
  = match first_category_token content with
    | Some token => token
    | None => "UNKNOWN"
    end.
Proof.
  unfold defect_fields.
  set (lines := if is_multiple then _ else _).
  destruct lines as [defect_line main_line]. cbn [fst snd].
  rewrite category_search.
  destruct (first_category_token content) as [token|] eqn:E; [|reflexivity].
  apply first_category_token_nonempty in E.
  now destruct (String.eqb_spec token "").
Qed.

Lemma defect_fields_description (is_multiple : bool) (content : string) :
  snd (defect_fields is_multiple content)
  = if structured_description content =? ""
    then cleaned_description content
    else structured_description content.
Proof.
  unfold defect_fields.
  set (lines := if is_multiple then _ else _).
  destruct lines as [defect_line main_line]. reflexivity.
Qed.

Lemma all_of_weaken (p q : ascii -> bool) (s : string) :
  (forall c, p c = true -> q c = true) ->
  all_of p s = true -> all_of q s = true.
Proof.
  intros Hpq; induction s as [|c s IH]; simpl; [reflexivity|].
  intros H. apply andb_true_iff in H as [Hc Hs].
  now rewrite (Hpq c Hc), (IH Hs).
Qed.

(** What a bracketed pattern reports as group 1 is the run between the
    brackets. *)
Lemma bracketed_group (key : string) (p : ascii -> bool)
    (t : string) (m : rmatch) :
  match_at
    (Str key +++ Star is_space +++ lit "[" +++ Group (Plus p) +++ lit "]") t
  = Some m ->
  group1 m <> "" /\ all_of p (group1 m) = true.
Proof.
  rewrite match_at_literal.
  destruct (starts_with key t); [|discriminate].
  generalize (drop (String.length key) t); intros u.
  unfold match_at. cbn [exec]. intros H.
  apply star_sound in H as (ws & rest & -> & Hws & H).
  destruct rest as [|b rest]; [discriminate|].
  cbn [exec lit] in H.
  destruct (Ascii.eqb "[" b); [|discriminate].
  destruct rest as [|c rest]; [discriminate|].
  destruct (p c) eqn:Hc; [|discriminate].
  apply star_sound in H as (n & rest' & -> & Hn & H).
  destruct rest' as [|e post]; [discriminate|].
  cbn [exec] in H.
  destruct (Ascii.eqb "]" e); [|discriminate].
  change (String c (n ++ String e post))
    with (String c n ++ String e post) in H.
  rewrite take_append in H.
  injection H as <-. cbn [group1 fst all_of]. rewrite Hc, Hn.
  split; [discriminate|reflexivity].
Qed.

Lemma digit_is_digit_or_hyphen (c : ascii) :
  is_digit c = true -> is_digit_or_hyphen c = true.
Proof. unfold is_digit_or_hyphen. now intros ->. Qed.

(** X1.  Whatever the interpreter is given, a defect line it reports is a
    non-empty run of digits and hyphens: the [Defect_Line] cell is never
    free text. *)
Theorem reported_line_is_digits_and_hyphens
    (result : pyval) (defect_line category : string) (description : pyval) :
  parse_llm_result result = Ret (Some defect_line, category, description) ->
  defect_line <> "" /\ all_of is_digit_or_hyphen defect_line = true.
Proof.
  intros H. apply parse_llm_result_cases in H
    as [(e & H)|[H|[H|(is_multiple & content & H)]]]; try discriminate.
  injection H as Hline _ _. rewrite defect_fields_line in Hline.
  destruct (search _ content) as [m|] eqn:E; [|discriminate].
  injection Hline as ->.
  apply search_sound in E as (pre & t & _ & E).
  destruct is_multiple.
  - exact (bracketed_group _ _ _ _ E).
  - destruct (bracketed_group _ _ _ _ E) as [Hne Hdig].
    split; [exact Hne|].
    exact (all_of_weaken _ _ _ digit_is_digit_or_hyphen Hdig).
Qed.

Lemma reported_line_is_digits_and_hyphens_witness :
  "3-5-12" <> "" /\ all_of is_digit_or_hyphen "3-5-12" = true.
Proof.
  apply (reported_line_is_digits_and_hyphens
           (chat_answer ("MULTIPLE DEFECTS: [YES]" ++ nl
                         ++ "ALL DEFECT LINES:   [3-5-12]"))
           "3-5-12" "UNKNOWN" (PStr "")).
  reflexivity.
Defined.

Lemma take_while_all (p : ascii -> bool) (s : string) :
  all_of p (take_while p s) = true.
Proof.
  induction s as [|c s IH]; simpl; [reflexivity|].
  destruct (p c) eqn:Hc; simpl; [now rewrite Hc|reflexivity].
Qed.

Lemma first_category_token_capitals (s token : string) :
  first_category_token s = Some token ->
  all_of is_upper_or_underscore token = true.
Proof.
  assert (Hat : forall u, category_token_at u = Some token ->
                          all_of is_upper_or_underscore token = true).
  { intros u. unfold category_token_at.
    destruct (starts_with _ u); [|discriminate].
    match goal with
    | |- context [take_while ?p ?t] =>
        pose proof (take_while_all p t) as Hall;
        destruct (take_while p t); [discriminate|]
    end.
    now intros [= <-]. }
  induction s as [|c s IH]; cbn [first_category_token].
  - destruct (category_token_at "") eqn:E; [|discriminate].
    intros [= <-]. eauto.
  - destruct (category_token_at (String c s)) eqn:E; [|assumption].
    intros [= <-]. eauto.
Qed.

(** X2.  Whatever the interpreter is given, the category it reports is a
    non-empty string of capital letters and underscores: one of its own
    three tags or a token taken from the content. *)
Theorem reported_category_is_capitals
    (result : pyval) (defect_line : option string) (category : string)
    (description : pyval) :
  parse_llm_result result = Ret (defect_line, category, description) ->
  category <> "" /\ all_of is_upper_or_underscore category = true.
Proof.
  intros H. apply parse_llm_result_cases in H
    as [(e & H)|[H|[H|(is_multiple & content & H)]]];
    try (injection H as _ -> _; split; [discriminate|reflexivity]).
  injection H as _ Hcat _. rewrite defect_fields_category in Hcat.
  destruct (first_category_token content) as [token|] eqn:E; subst category.
  - split; [exact (first_category_token_nonempty _ _ E)|].
    exact (first_category_token_capitals _ _ E).
  - split; [discriminate|reflexivity].
Qed.

Lemma reported_category_is_capitals_witness :
  "RACE_HAZARD" <> "" /\ all_of is_upper_or_underscore "RACE_HAZARD" = true.
Proof.
  apply (reported_category_is_capitals
           (chat_answer ("DEFECT LINE: [4]" ++ nl
                         ++ "DEFECT CATEGORY: RACE_HAZARD or so"))
           (Some "4") "RACE_HAZARD" (PStr "")).
  reflexivity.
Defined.

Lemma split_head_has_no_stop (d : string) :
  contains "." (split_head "." d) = false.
Proof.
  induction d as [|a d IH]; [reflexivity|].
  cbn [split_head]. destruct (Ascii.eqb a ".") eqn:E; [reflexivity|].
  cbn [contains starts_with]. rewrite (Ascii.eqb_sym "." a), E. exact IH.
Qed.

(** X3.  The description of a chat answer has at most 100 characters, or
    else it is one sentence: it ends in a full stop and holds no other. *)
Theorem description_is_short_or_one_sentence
    (result : pyval) (content : string) (defect_line : option string)
    (category : string) (description : pyval) :
  carries_content result content ->
  parse_llm_result result = Ret (defect_line, category, description) ->
  exists d,
    description = PStr d
    /\ (String.length d <= 100
        \/ exists sentence,
             d = sentence ++ "." /\ contains "." sentence = false).
Proof.
  intros Hc. rewrite (parse_content _ _ Hc).
  destruct (contains "RESULT: [NO]" content).
  - intros [= _ _ <-]. eexists; split; [reflexivity|left]. simpl. lia.
  - pose proof (defect_fields_description
                  (contains "MULTIPLE DEFECTS: [YES]" content) content) as Hd.
    destruct (defect_fields _ content) as [[l c] d]. cbn [snd] in Hd.
    intros [= _ _ <-]. exists d. split; [reflexivity|]. subst d.
    destruct (structured_description content =? "").
    + left. apply length_cap100.
    + unfold structured_description.
      destruct (search description_re content) as [m|]; [|left; simpl; lia].
      cbv zeta. destruct (contains "." (strip (group1 m))).
      * right. eexists; split; [reflexivity|apply split_head_has_no_stop].
      * left. apply length_cap100.
Qed.

Lemma description_is_short_or_one_sentence_witness :
  exists d,
    PStr "Output port unassigned." = PStr d
    /\ (String.length d <= 100
        \/ exists sentence,
             d = sentence ++ "." /\ contains "." sentence = false).
Proof.
  apply (description_is_short_or_one_sentence
           (chat_answer ("DESCRIPTION: Output port unassigned. It floats."))
           _ None "UNKNOWN" _ (chat_answer_carries _)).
  reflexivity.
Defined.

(** A lazy repetition stops at the first place its continuation accepts:
    over everything it walked past, the continuation had refused. *)
Lemma star_lazy_sound (p q : ascii -> bool) (k : string -> option rmatch)
    (s : string) (m : rmatch) :
  (forall a x, k (String a x) = None -> q a = true) ->
  star_lazy p k s = Some m ->
  exists w rest, s = w ++ rest /\ all_of q w = true /\ k rest = Some m.
Proof.
  intros Hq. induction s as [|a s IH]; cbn [star_lazy].
  - destruct (k "") eqn:E; [|discriminate].
    intros [= <-]. exists "", "". auto.
  - destruct (k (String a s)) eqn:E.
    + intros [= <-]. exists "", (String a s). auto.
    + destruct (p a); [|discriminate]. intros H.
      destruct (IH H) as (w & rest & -> & Hw & Hk).
      exists (String a w), rest. cbn [all_of append].
      now rewrite (Hq _ _ E), Hw.
Qed.

Lemma all_of_lstrip (q p : ascii -> bool) (s : string) :
  all_of q s = true -> all_of q (lstrip_by p s) = true.
Proof.
  induction s as [|c s IH]; [reflexivity|].
  cbn [lstrip_by]. destruct (p c); [|auto].
  cbn [all_of]. intros H. apply andb_true_iff in H as [_ H]. auto.
Qed.

Lemma all_of_rstrip (q p : ascii -> bool) (s : string) :
  all_of q s = true -> all_of q (rstrip_by p s) = true.
Proof.
  induction s as [|c s IH]; [reflexivity|].
  cbn [rstrip_by all_of]. intros H. apply andb_true_iff in H as [Hc H].
  specialize (IH H).
  destruct (rstrip_by p s); [destruct (p c)|]; cbn [all_of] in *;
    now rewrite ?Hc, ?IH.
Qed.

Lemma all_of_take (q : ascii -> bool) (n : nat) (s : string) :
  all_of q s = true -> all_of q (take n s) = true.
Proof.
  revert s; induction n as [|n IH]; intros [|c s]; try reflexivity.
  cbn [take all_of]. intros H. apply andb_true_iff in H as [-> H].
  now rewrite (IH s H).
Qed.

Lemma all_of_split_head (q : ascii -> bool) (c : ascii) (s : string) :
  all_of q s = true -> all_of q (split_head c s) = true.
Proof.
  induction s as [|a s IH]; [reflexivity|].
  cbn [split_head all_of]. intros H. apply andb_true_iff in H as [Ha H].
  destruct (Ascii.eqb a c); [reflexivity|].
  cbn [all_of]. now rewrite Ha, (IH H).
Qed.

Lemma all_of_cap100 (q : ascii -> bool) (s : string) :
  q "."%char = true -> all_of q s = true -> all_of q (cap100 s) = true.
Proof.
  intros Hdot H. unfold cap100.
  destruct (100 <? String.length s)%nat; [|exact H].
  rewrite all_of_append, (all_of_take _ _ _ H). cbn [all_of].
  now rewrite Hdot.
Qed.

Lemma space_or_not_newline (c : ascii) :
  is_space c = false -> not_newline c = true.
Proof.
  destruct c as [[] [] [] [] [] [] [] []]; vm_compute; congruence.
Qed.

(** Stripping the text of a line leaves no line break, also when the
    character the line opens with is one. *)
Lemma strip_line_has_no_break (c : ascii) (w : string) :
  all_of not_newline w = true ->
  all_of not_newline (strip (String c w)) = true.
Proof.
  intros Hw. unfold strip. cbn [lstrip_by].
  destruct (is_space c) eqn:Hc.
  - now apply all_of_rstrip, all_of_lstrip.
  - apply all_of_rstrip. cbn [all_of].
    now rewrite (space_or_not_newline c Hc), Hw.
Qed.

(** Group 1 of the description pattern is one character followed by text
    without a line break. *)
Lemma description_group (t : string) (m : rmatch) :
  match_at description_re t = Some m ->
  exists c w, group1 m = String c w /\ all_of not_newline w = true.
Proof.
  unfold description_re. rewrite match_at_literal.
  destruct (starts_with "DESCRIPTION:" t); [|discriminate].
  generalize (drop (String.length "DESCRIPTION:") t); intros u.
  unfold match_at. rewrite exec_star. intros H.
  apply star_sound in H as (ws & rest & -> & _ & H).
  destruct rest as [|c r]; [discriminate|].
  cbn [exec any_char] in H.
  apply (star_lazy_sound _ not_newline) in H.
  - destruct H as (w & rest & -> & Hw & H).
    exists c, w. split; [|exact Hw].
    change (String c (w ++ rest)) with (String c w ++ rest) in H.
    rewrite take_append in H.
    destruct rest as [|a rest]; cbn [exec lit] in H;
      repeat match type of H with
             | context [if ?b then _ else _] => destruct b
             | context [match ?x with "" => _ | String _ _ => _ end] =>
                 destruct x
             end;
      try discriminate; now injection H as <-.
  - intros a x Hk. unfold not_newline.
    destruct (Ascii.eqb a newline) eqn:E; [|reflexivity].
    apply Ascii.eqb_eq in E; subst a. cbn [exec lit] in Hk.
    rewrite Ascii.eqb_refl in Hk. discriminate.
Qed.

(** Collapsing white space leaves no line break: what [re.sub] puts out
    is a blank for each stretch of white space and every other character
    as it is. *)
Lemma collapsed_has_no_break (s : string) (skip : nat) :
  all_of not_newline (sub_from (Plus is_space) " " s skip) = true.
Proof.
  revert skip; induction s as [|c s IH]; intros skip; [reflexivity|].
  cbn [sub_from]. destruct skip as [|n]; [|apply IH].
  destruct (match_at (Plus is_space) (String c s)) as [[g rest]|] eqn:E;
    unfold match_at in E; cbn [exec] in E;
    destruct (is_space c) eqn:Hc; try discriminate.
  - apply star_sound in E as (w & rest' & -> & _ & E).
    injection E as _ <-.
    replace (String.length (String c (w ++ rest')) - String.length rest')
      with (S (String.length w))
      by (cbn [String.length]; rewrite length_append; lia).
    cbn [append all_of]. now rewrite IH.
  - exfalso.
    rewrite (star_lstrip_some _ _ s (None, lstrip_by is_space s) eq_refl) in E.
    discriminate.
  - cbn [all_of]. now rewrite (space_or_not_newline c Hc), IH.
Qed.

(** X4.  The description of a chat answer never holds a line break, so
    the row of a module stays on one line of the report. *)
Theorem description_is_one_line
    (result : pyval) (content : string) (defect_line : option string)
    (category : string) (description : pyval) :
  carries_content result content ->
  parse_llm_result result = Ret (defect_line, category, description) ->
  exists d, description = PStr d /\ all_of not_newline d = true.
Proof.
  intros Hc. rewrite (parse_content _ _ Hc).
  destruct (contains "RESULT: [NO]" content).
  - intros [= _ _ <-]. eexists; split; reflexivity.
  - pose proof (defect_fields_description
                  (contains "MULTIPLE DEFECTS: [YES]" content) content) as Hd.
    destruct (defect_fields _ content) as [[l c] d]. cbn [snd] in Hd.
    intros [= _ _ <-]. exists d. split; [reflexivity|]. subst d.
    destruct (structured_description content =? "").
    + unfold cleaned_description, strip, sub.
      apply all_of_cap100; [reflexivity|].
      apply all_of_rstrip, all_of_lstrip, collapsed_has_no_break.
    + unfold structured_description.
      destruct (search description_re content) as [m|] eqn:E;
        [|reflexivity].
      apply search_sound in E as (pre & t & _ & E).
      apply description_group in E as (c0 & w & -> & Hw).
      pose proof (strip_line_has_no_break c0 w Hw) as Hs.
      cbv zeta. destruct (contains "." (strip (String c0 w))).
      * rewrite all_of_append, (all_of_split_head _ _ _ Hs). reflexivity.
      * now apply all_of_cap100.
Qed.

Lemma description_is_one_line_witness :
  exists d,
    PStr "a = b; c = d; always @(posedge clk) q <= d;" = PStr d
    /\ all_of not_newline d = true.
Proof.
  apply (description_is_one_line
           (chat_answer ("RESULT: [YES]" ++ nl ++ "a = b;" ++ nl
                         ++ "  c = d;" ++ nl ++ nl
                         ++ "always @(posedge clk) q <= d;" ++ nl))
           _ None "UNKNOWN" _ (chat_answer_carries _)).
  reflexivity.
Defined.

(** X5.  A [dict] without an ['error'] entry that has no ['message'], or
    whose ['message'] is a [dict] without ['content'], the empty [dict]
    included, is interpreted as the unknown-format record. *)
Theorem missing_message_or_content_is_unknown_format
    (d : list (string * pyval)) :
  dict_get "error" d = None ->
  dict_get "message" d = None
  \/ (exists m, dict_get "message" d = Some (PDict m)
                /\ dict_get "content" m = None) ->
  parse_llm_result (PDict d)
  = Ret (None, "UNKNOWN", PStr "Unknown result format").
Proof.
  intros He Hm. unfold parse_llm_result, py_in, py_getitem, bind.
  rewrite He. cbv iota.
  destruct (py_truthy (PDict d)); [|reflexivity].
  destruct Hm as [->|(m & -> & ->)]; reflexivity.
Qed.

Lemma missing_message_or_content_is_unknown_format_witness :
  parse_llm_result
    (PDict [("model", PStr "qwen3:14b");
            ("message", PDict [("role", PStr "assistant")])])
  = Ret (None, "UNKNOWN", PStr "Unknown result format").
Proof.
  apply missing_message_or_content_is_unknown_format.
  - reflexivity.
  - right. eexists. split; reflexivity.
Defined.

Lemma py_in_raises (key : string) (v : pyval) (e : exc) :
  py_in key v = Raise e -> exists msg, e = TypeError msg.
Proof. destruct v; try discriminate; intros [= <-]; eauto. Qed.

(** A subscript taken after its membership test never misses the key. *)
Lemma py_getitem_guarded (key : string) (v : pyval) (e : exc) :
  py_in key v = Ret true -> py_getitem v key = Raise e ->
  exists msg, e = TypeError msg.
Proof.
  destruct v; cbn [py_in py_getitem]; try discriminate;
    try (intros _ [= <-]; eauto).
  destruct (dict_get key d); discriminate.
Qed.

Lemma as_str_raises (v : pyval) (e : exc) :
  as_str v = Raise e -> exists msg, e = TypeError msg.
Proof. destruct v; try discriminate; intros [= <-]; eauto. Qed.

Ltac split_outcome_in_hyps :=
  match goal with
  | H : context [match ?x with Ret _ => _ | Raise _ => _ end] |- _ =>
      destruct x as [?|?] eqn:?
  | H : context [if ?b then _ else _] |- _ => destruct b eqn:?
  end.

(** X6.  The only exception the interpreter ever raises is a
    [TypeError]: every subscript it takes is guarded by a membership
    test, so no [KeyError] can come out of it. *)
Theorem interpreter_raises_only_type_errors (result : pyval) (e : exc) :
  parse_llm_result result = Raise e -> exists msg, e = TypeError msg.
Proof.
  unfold parse_llm_result, bind.
  repeat split_outcome; try discriminate; intros [= <-];
    repeat split_outcome_in_hyps; try discriminate;
    try congruence;
    repeat match goal with
           | H : Ret _ = Ret _ |- _ => injection H as ->
           | H : Raise _ = Raise _ |- _ => injection H as ->
           | H : negb ?a = false |- _ => destruct a; [clear H|discriminate H]
           end;
    try congruence;
    eauto using py_in_raises, py_getitem_guarded, as_str_raises.
Qed.

Lemma interpreter_raises_only_type_errors_witness :
  exists msg, TypeError "argument is not iterable" = TypeError msg.
Proof.
  apply (interpreter_raises_only_type_errors
           (PDict [("message", PDict [("content", PNone)])])).
  reflexivity.
Defined.

(** ** The other helpers of [utils.py] *)

(** X7.  On a [dict] that holds both an ['error'] entry and a
    ['message'] with a [str] content the two readers of a result
    disagree: [format_result_message] shows the content as an analysis
    result, [parse_llm_result] makes the error record of it.  On an error
    value of the pipeline's own making [format_result_message] shows the
    error. *)
Theorem message_and_error_are_read_differently
    (fmt : pyval -> string) (module_name : string)
    (d m : list (string * pyval)) (content : string) (e : pyval) :
  (forall s, fmt (PStr s) = s) ->
  dict_get "error" d = Some e ->
  dict_get "message" d = Some (PDict m) ->
  dict_get "content" m = Some (PStr content) ->
  format_result_message fmt module_name (PDict d)
  = Ret ("Analysis result for " ++ module_name ++ ": " ++ content)
  /\ parse_llm_result (PDict d) = Ret (None, "ERROR", e)
  /\ forall msg,
       format_result_message fmt module_name (error_value msg)
       = Ret ("Error analyzing " ++ module_name ++ ": " ++ msg).
Proof.
  intros Hfmt He Hm Hc.
  assert (Ht : py_truthy (PDict d) = true)
    by (destruct d; [discriminate|reflexivity]).
  repeat split.
  - unfold format_result_message, py_in, py_getitem, bind.
    now rewrite Ht, Hm, Hc, Hfmt.
  - unfold parse_llm_result, py_in, py_getitem, bind. now rewrite He.
  - intros msg. cbn. now rewrite Hfmt.
Qed.

Lemma message_and_error_are_read_differently_witness :
  let d := [("error", PStr "model overloaded");
            ("message", PDict [("content", PStr "RESULT: [NO]")])] in
  format_result_message plain_text "simple_1" (PDict d)
  = Ret "Analysis result for simple_1: RESULT: [NO]"
  /\ parse_llm_result (PDict d)
     = Ret (None, "ERROR", PStr "model overloaded").
Proof.
  intros d.
  destruct (message_and_error_are_read_differently plain_text "simple_1"
              d [("content", PStr "RESULT: [NO]")] "RESULT: [NO]"
              (PStr "model overloaded")
              (fun s => eq_refl) eq_refl eq_refl eq_refl) as (H1 & H2 & _).
  exact (conj H1 H2).
Defined.


(** X9.  The path of a module always ends in [<module_name>.v].  A
    module name that starts with a slash makes [base_path] drop out, an
    empty [base_path] adds nothing, and otherwise the two are joined by
    exactly one slash: one is put in unless [base_path] ends in one. *)
Theorem build_verilog_path_shape (base_path module_name : string) :
  (exists dir, build_verilog_path base_path module_name
               = dir ++ module_name ++ ".v")
  /\ (starts_with "/" module_name = true ->
      build_verilog_path base_path module_name = module_name ++ ".v")
  /\ (starts_with "/" module_name = false ->
      build_verilog_path "" module_name = module_name ++ ".v"
      /\ build_verilog_path (base_path ++ "/") module_name
         = base_path ++ "/" ++ module_name ++ ".v"
      /\ forall c, c <> "/"%char ->
           build_verilog_path (base_path ++ String c "") module_name
           = base_path ++ String c "" ++ "/" ++ module_name ++ ".v").
Proof.
  assert (Hslash : starts_with "/" (module_name ++ ".v")
                   = starts_with "/" module_name)
    by (destruct module_name; reflexivity).
  unfold build_verilog_path, path_join. rewrite Hslash.
  assert (Hlast : forall a c,
             drop (String.length (a ++ String c "") - 1) (a ++ String c "")
             = String c "").
  { intros a c. rewrite length_append. cbn [String.length].
    replace (String.length a + 1 - 1) with (String.length a) by lia.
    apply drop_append. }
  split; [|split].
  - destruct (starts_with "/" module_name).
    + exists "". reflexivity.
    + destruct (_ || _).
      * exists base_path. reflexivity.
      * exists (base_path ++ "/"). now rewrite append_assoc.
  - now intros ->.
  - intros ->. split; [reflexivity|]. split.
    + rewrite (Hlast base_path "/"%char).
      rewrite orb_true_r. apply append_assoc.
    + intros c Hc. rewrite (Hlast base_path c).
      assert (Hne : (base_path ++ String c "" =? "") = false)
        by (destruct base_path; reflexivity).
      assert (Hc' : (String c "" =? "/") = false).
      { apply String.eqb_neq. congruence. }
      rewrite Hne, Hc'. cbn [orb]. now rewrite !append_assoc.
Qed.


Lemma build_verilog_path_shape_witness :
  build_verilog_path "ignored" "/abs/simple_1" = "/abs/simple_1.v"
  /\ build_verilog_path ("Benchmark/simple" ++ "/") "simple_1"
     = "Benchmark/simple" ++ "/" ++ "simple_1" ++ ".v".
Proof.
  split.
  - exact (proj1 (proj2 (build_verilog_path_shape "ignored"
                           "/abs/simple_1")) eq_refl).
  - exact (proj1 (proj2 (proj2 (proj2 (build_verilog_path_shape
                                         "Benchmark/simple" "simple_1"))
                           eq_refl))).
Defined.

(** ** The prompt *)

Lemma numbered_nth (i0 : Z) (lines : list string) (n : nat) (line : string) :
  nth_error lines n = Some line ->
  numbered i0 lines
  = numbered i0 (firstn n lines)
    ++ (str_of_int (i0 + Z.of_nat n + 1) ++ ": " ++ line)
    ++ numbered (i0 + Z.of_nat n + 1) (skipn (S n) lines).
Proof.
  revert i0 n; induction lines as [|x lines IH]; intros i0 [|n] H;
    try discriminate.
  - injection H as ->. cbn [firstn skipn numbered append Z.of_nat].
    rewrite Z.add_0_r, !append_assoc. reflexivity.
  - cbn [nth_error] in H. cbn [firstn skipn numbered].
    rewrite (IH (i0 + 1)%Z n H).
    replace (i0 + 1 + Z.of_nat n + 1)%Z with (i0 + Z.of_nat (S n) + 1)%Z
      by lia.
    now rewrite !append_assoc.
Qed.

(** X10.  In the prompt the source lines stand between the sentence that
    names the module and the rules, in their order and with nothing put
    between them, each behind its number and a colon, and the numbers
    count from 1: line [n] (from 0) of the file is numbered [n + 1]. *)
Theorem prompt_numbers_lines_from_one
    (w : world) (module_name : string) (lines : list string)
    (n : nat) (line : string) :
  nth_error lines n = Some line ->
  build_analysis_prompt w module_name lines
  = ("The following <code> is the Verilog code for the module named <"
     ++ module_name ++ ">.")
    ++ nl
    ++ numbered 0 (firstn n lines)
    ++ (str_of_int (Z.of_nat n + 1) ++ ": " ++ line)
    ++ numbered (Z.of_nat n + 1) (skipn (S n) lines)
    ++ nl ++ prompt_rules w.
Proof.
  intros H. unfold build_analysis_prompt.
  rewrite (numbered_nth 0 lines n line H). cbn [Z.add].
  now rewrite !append_assoc.
Qed.

Lemma prompt_numbers_lines_from_one_witness :
  build_analysis_prompt refusing "simple_1"
    ["module m;" ++ nl; "endmodule" ++ nl]
  = ("The following <code> is the Verilog code for the module named <"
     ++ "simple_1" ++ ">.")
    ++ nl
    ++ numbered 0 ["module m;" ++ nl]
    ++ ("2" ++ ": " ++ ("endmodule" ++ nl))
    ++ numbered 2 []
    ++ nl ++ prompt_rules refusing.
Proof.
  exact (prompt_numbers_lines_from_one refusing "simple_1"
           ["module m;" ++ nl; "endmodule" ++ nl] 1 ("endmodule" ++ nl)
           eq_refl).
Defined.

(** ** More on the batch runner *)

Lemma report_fold (rows : list row) (fs : filesystem) :
  report (fold_left with_row rows fs) = extend (report fs) rows.
Proof.
  revert fs; induction rows as [|r rows IH]; intros fs; [reflexivity|].
  cbn [fold_left]. rewrite IH, report_with_row. apply extend_app.
Qed.

Lemma frame_fold (rows : list row) (fs : filesystem) (other : string) :
  other <> "results.csv" -> fold_left with_row rows fs other = fs other.
Proof.
  intros Hother. revert fs; induction rows as [|r rows IH]; intros fs;
    [reflexivity|].
  cbn [fold_left]. rewrite IH. unfold with_row, fs_write.
  now destruct (String.eqb_spec other "results.csv").
Qed.

(** A module either gets its one row or stops the run before any row of
    its own, the same way from whatever files. *)
Lemma process_module_writes (w : world)
    (level module_prefix base_path : string) (k : Z) :
  exists rows stop,
    writes (process_module w level module_prefix base_path k) rows stop
    /\ map (firstn 2) rows
       = firstn (length rows)
           [[PStr level; PStr ((module_prefix ++ str_of_int k) ++ ".v")]]
    /\ (stop = None -> length rows = 1)
    /\ (stop <> None -> length rows = 0).
Proof.
  destruct (analyze_verilog_module_cases w
              (module_prefix ++ str_of_int k) base_path) as (v & Hv & _).
  destruct (parse_llm_result v) as [[[l t] d]|e] eqn:Hp.
  - exists [csv_row level ((module_prefix ++ str_of_int k) ++ ".v") l t d],
      None.
    split; [|repeat split; congruence].
    intros fs. unfold process_module, mbind, lift. rewrite Hv, Hp.
    apply write_to_csv_row.
  - exists [], (Some e). split; [|repeat split; congruence].
    intros fs. unfold process_module, mbind, lift. now rewrite Hv, Hp.
Qed.

(** The modules of a list get their rows in order, up to the first one
    that stops the run. *)
Lemma modules_write (w : world) (level module_prefix base_path : string)
    (ks : list Z) :
  exists rows stop,
    writes (for_each ks (process_module w level module_prefix base_path))
      rows stop
    /\ map (firstn 2) rows
       = map (fun k => [PStr level;
                        PStr ((module_prefix ++ str_of_int k) ++ ".v")])
           (firstn (length rows) ks)
    /\ (stop = None -> length rows = length ks)
    /\ (stop <> None -> length rows < length ks).
Proof.
  induction ks as [|k ks IH].
  - exists [], None. repeat split; try congruence.
  - destruct (process_module_writes w level module_prefix base_path k)
      as (r1 & s1 & Hw1 & Hc1 & Hok1 & Hstop1).
    destruct s1 as [e|].
    + exists r1, (Some e).
      assert (Hlen : length r1 = 0) by (apply Hstop1; congruence).
      destruct r1; [|discriminate].
      split; [|repeat split; cbn; try congruence; lia].
      intros fs. cbn [for_each]. unfold mbind. now rewrite Hw1.
    + destruct IH as (r2 & s2 & Hw2 & Hc2 & Hok2 & Hstop2).
      assert (Hlen : length r1 = 1) by now apply Hok1.
      destruct r1 as [|r [|? ?]]; try discriminate.
      exists (r :: r2), s2. split; [|split; [|split]].
      * intros fs. cbn [for_each]. unfold mbind. rewrite Hw1.
        cbn [ending fold_left]. apply Hw2.
      * change (map (firstn 2) [r]) with [firstn 2 r] in Hc1.
        change (firstn (length [r]) [?x]) with [x] in Hc1.
        injection Hc1 as Hr.
        change (map (firstn 2) (r :: r2))
          with (firstn 2 r :: map (firstn 2) r2).
        change (firstn (length (r :: r2)) (k :: ks))
          with (k :: firstn (length r2) ks).
        cbn [map]. rewrite Hc2. f_equal. exact Hr.
      * intros Hs. cbn [length]. now rewrite (Hok2 Hs).
      * intros Hs. cbn [length]. specialize (Hstop2 Hs). lia.
Qed.



Lemma batches_write (w : world) (batches : list (string * string)) :
  exists rows stop,
    writes
      (for_each batches
         (fun '(prefix, folder) =>
            process_module_batch w Config.MODULE_START_INDEX
              Config.MODULE_END_INDEX prefix
              (Config.BASE_BENCHMARK_PATH ++ "/" ++ folder)))
      rows stop
    /\ (stop = None -> length rows = 30 * length batches)
    /\ (stop <> None -> length rows < 30 * length batches).
Proof.
  induction batches as [|[prefix folder] batches IH].
  - exists [], None. repeat split; try congruence.
  - destruct (modules_write w (rstrip_char "_" prefix) prefix
                (Config.BASE_BENCHMARK_PATH ++ "/" ++ folder)
                (range Config.MODULE_START_INDEX Config.MODULE_END_INDEX))
      as (r1 & s1 & Hw1 & _ & Hok1 & Hstop1).
    change (length (range Config.MODULE_START_INDEX Config.MODULE_END_INDEX))
      with 30 in Hok1, Hstop1.
    destruct s1 as [e|].
    + exists r1, (Some e). split; [|split; [congruence|]].
      * intros fs. cbn [for_each]. unfold mbind, process_module_batch.
        now rewrite Hw1.
      * intros _. cbn [length]. assert (length r1 < 30) by (apply Hstop1;
          congruence). lia.
    + destruct IH as (r2 & s2 & Hw2 & Hok2 & Hstop2).
      exists (r1 ++ r2)%list, s2. split; [|split].
      * intros fs. cbn [for_each]. unfold mbind, process_module_batch.
        rewrite Hw1. cbn [ending]. rewrite Hw2. now rewrite fold_left_app.
      * intros Hs. rewrite length_app, (Hok1 eq_refl), (Hok2 Hs).
        cbn [length]. lia.
      * intros Hs. rewrite length_app, (Hok1 eq_refl).
        specialize (Hstop2 Hs). cbn [length]. lia.
Qed.

(** A run from the files' point of view. *)
Lemma main_writes (w : world) :
  exists rows stop,
    (forall fs0,
        fst (main w fs0) = ending stop
        /\ report (snd (main w fs0)) = extend None rows
        /\ forall other, other <> "results.csv" ->
                         snd (main w fs0) other = fs0 other)
    /\ (stop = None -> length rows = 90)
    /\ (stop <> None -> length rows < 90).
Proof.
  destruct (batches_write w
              (combine Config.PROJECT_PREFIXES Config.FOLDER_NAMES))
    as (rows & stop & Hw & Hok & Hstop).
  exists rows, stop. split; [|split; assumption].
  intros fs0.
  assert (Hstart : exists fs1,
             main w fs0 = (ending stop, fold_left with_row rows fs1)
             /\ report fs1 = None
             /\ forall other, other <> "results.csv" -> fs1 other = fs0 other).
  { unfold main, mbind, file_exists, remove, mret, report.
    destruct (fs0 "results.csv") eqn:E.
    - exists (fs_remove fs0 "results.csv"). split; [apply Hw|].
      unfold fs_remove. rewrite String.eqb_refl. split; [reflexivity|].
      intros other Hother.
      now destruct (String.eqb_spec other "results.csv").
    - exists fs0. split; [apply Hw|]. split; [exact E|reflexivity]. }
  destruct Hstart as (fs1 & -> & Hnone & Hframe). cbn [fst snd].
  split; [reflexivity|]. split.
  - now rewrite report_fold, Hnone.
  - intros other Hother. rewrite frame_fold by exact Hother. now apply Hframe.
Qed.

(** X12.  A run changes no file but the report. *)
Theorem main_touches_only_the_report
    (w : world) (fs0 : filesystem) (other : string) :
  other <> "results.csv" -> snd (main w fs0) other = fs0 other.
Proof.
  intros Hother.
  destruct (main_writes w) as (rows & stop & H & _).
  now apply H.
Qed.

Lemma main_touches_only_the_report_witness :
  snd (main refusing stale_report) "results.bak"
  = stale_report "results.bak".
Proof.
  apply main_touches_only_the_report. discriminate.
Defined.

(** X13.  How a run ends and what report it leaves depend on the
    surroundings alone, not on the files it finds: in particular a second
    run over the files of a first one leaves the same report again. *)
Theorem main_forgets_earlier_files (w : world) (fs fs' : filesystem) :
  fst (main w fs) = fst (main w fs')
  /\ report (snd (main w fs)) = report (snd (main w fs'))
  /\ report (snd (main w (snd (main w fs)))) = report (snd (main w fs)).
Proof.
  destruct (main_writes w) as (rows & stop & H & _).
  destruct (H fs) as (H1 & H2 & _).
  destruct (H fs') as (H1' & H2' & _).
  destruct (H (snd (main w fs))) as (_ & H2'' & _).
  repeat split; congruence.
Qed.

(** X14.  A run that ends without an exception leaves a report of the
    header and exactly 90 rows; a run that an exception stops leaves no
    report at all, or the header and fewer than 90 rows: never rows
    without a header, never an empty file. *)
Theorem main_leaves_header_and_rows (w : world) (fs0 : filesystem) :
  match fst (main w fs0) with
  | Ret _ =>
      exists rows,
        report (snd (main w fs0)) = Some (header :: rows)
        /\ length rows = 90
  | Raise _ =>
      report (snd (main w fs0)) = None
      \/ exists rows,
           report (snd (main w fs0)) = Some (header :: rows)
           /\ length rows < 90
  end.
Proof.
  destruct (main_writes w) as (rows & stop & H & Hok & Hstop).
  destruct (H fs0) as (-> & -> & _).
  destruct stop as [e|]; cbn [ending].
  - assert (Hlt : length rows < 90) by (apply Hstop; congruence).
    destruct rows; [left; reflexivity|right].
    eexists; split; [reflexivity|exact Hlt].
  - specialize (Hok eq_refl).
    destruct rows; [discriminate Hok|].
    eexists; split; [reflexivity|exact Hok].
Qed.

(** X15.  When the interpreter raises on the answer for module [k] of a
    batch, the batch ends with that exception right there: the rows of
    the modules before [k] stay in the report, [k] gets no row, and no
    later module is looked at. *)
Theorem batch_stops_where_interpreter_raises
    (w : world) (start_idx end_idx k : Z) (module_prefix base_path : string)
    (fs : filesystem) (v : pyval) (e : exc) :
  (start_idx <= k < end_idx)%Z ->
  analyze_verilog_module w (module_prefix ++ str_of_int k) base_path
  = Ret v ->
  parse_llm_result v = Raise e ->
  process_module_batch w start_idx end_idx module_prefix base_path fs
  = match process_module_batch w start_idx k module_prefix base_path fs with
    | (Ret _, fs1) => (Raise e, fs1)
    | (Raise e', fs1) => (Raise e', fs1)
    end.
Proof.
  intros Hk Hv Hp. unfold process_module_batch.
  rewrite (range_split _ _ _ Hk), for_each_app.
  destruct (for_each (range start_idx k) _ fs) as [[[]|e'] fs1];
    [|reflexivity].
  cbn [for_each]. unfold mbind at 1, process_module at 1, mbind, lift.
  now rewrite Hv, Hp.
Qed.

Lemma batch_stops_where_interpreter_raises_witness :
  process_module_batch stumbling 1 31 "medium_" "Benchmark/medium"
    stale_report
  = match process_module_batch stumbling 1 1 "medium_" "Benchmark/medium"
            stale_report with
    | (Ret _, fs1) => (Raise (TypeError "argument is not iterable"), fs1)
    | (Raise e', fs1) => (Raise e', fs1)
    end.
Proof.
  apply (batch_stops_where_interpreter_raises stumbling 1 31 1 "medium_"
           "Benchmark/medium" stale_report
           (PDict [("message", PDict [("content", PNone)])])).
  - lia.
  - reflexivity.
  - reflexivity.
Defined.

(** X16.  For a module whose source file exists, a failure to read the
    file, a transport failure of the request and an answer with a status
    other than 200 each give the module one row with ["N/A"], ["ERROR"]
    and the message of the failure, and the run goes on: the messages are
    ["File operation failed: "], ["Network request failed: "] and
    ["Request failed with status code: "], each followed by the cause. *)
Theorem failures_become_error_rows
    (w : world) (level module_prefix base_path : string) (k : Z)
    (fs : filesystem) :
  let module_name := module_prefix ++ str_of_int k in
  let verilog_path := build_verilog_path base_path module_name in
  let error_row := fun msg =>
    [PStr level; PStr (module_name ++ ".v"); PStr "N/A"; PStr "ERROR";
     PStr msg] in
  let data := fun lines =>
    create_llm_request_data (build_analysis_prompt w module_name lines) in
  path_exists w verilog_path = true ->
  (forall e,
      readlines w verilog_path = Raise e ->
      process_module w level module_prefix base_path k fs
      = (Ret tt,
         with_row fs (error_row ("File operation failed: " ++ exc_str e))))
  /\ (forall lines text,
         readlines w verilog_path = Ret lines ->
         post w (data lines) = Raise (RequestException text) ->
         process_module w level module_prefix base_path k fs
         = (Ret tt,
            with_row fs (error_row ("Network request failed: " ++ text))))
  /\ (forall lines r,
         readlines w verilog_path = Ret lines ->
         post w (data lines) = Ret r ->
         status_code r <> 200%Z ->
         process_module w level module_prefix base_path k fs
         = (Ret tt,
            with_row fs
              (error_row ("Request failed with status code: "
                          ++ str_of_int (status_code r))))).
Proof.
  intros module_name verilog_path error_row data Hexists.
  assert (Herr : forall msg,
             analyze_verilog_module w module_name base_path
             = Ret (error_value msg) ->
             process_module w level module_prefix base_path k fs
             = (Ret tt, with_row fs (error_row msg))).
  { intros msg Hv. unfold process_module, mbind, lift.
    fold module_name. rewrite Hv.
    change (parse_llm_result (error_value msg))
      with (Ret (A := defect_record) (None, "ERROR", PStr msg)).
    cbv beta iota. now rewrite write_to_csv_row. }
  repeat split.
  - intros e Hread. apply Herr. unfold analyze_verilog_module.
    fold verilog_path. now rewrite Hexists, Hread.
  - intros lines text Hread Hpost. apply Herr.
    unfold analyze_verilog_module, send_llm_request.
    fold verilog_path. rewrite Hexists, Hread. cbn [negb bind].
    fold (data lines). now rewrite Hpost.
  - intros lines r Hread Hpost Hstatus. apply Herr.
    unfold analyze_verilog_module, send_llm_request.
    fold verilog_path. rewrite Hexists, Hread. cbn [negb bind].
    fold (data lines). rewrite Hpost. cbn [bind].
    now destruct (Z.eqb_spec (status_code r) 200).
Qed.

Lemma failures_become_error_rows_witness :
  process_module unreadable_files "simple" "simple_" "Benchmark/simple" 3
    stale_report
  = (Ret tt,
     with_row stale_report
       [PStr "simple"; PStr "simple_3.v"; PStr "N/A"; PStr "ERROR";
        PStr "File operation failed: Permission denied"]).
Proof.
  exact (proj1 (failures_become_error_rows unreadable_files "simple"
                  "simple_" "Benchmark/simple" 3 stale_report eq_refl)
           (OtherException "Permission denied") eq_refl).
Defined.

(** X17.  The status printed for a module agrees with its row: it is
    ["DEFECT FOUND"] exactly when the [Defect_Line] cell holds a line and
    not ["N/A"], and ["NO DEFECTS"] exactly when there is no line and the
    category is ["NONE"]; every other record, the unknown format and a
    defect without a line included, is shown as ["ERROR"]. *)
Theorem status_agrees_with_row
    (result : pyval) (defect_line : option string) (category : string)
    (description : pyval) :
  parse_llm_result result = Ret (defect_line, category, description) ->
  (status defect_line category = "DEFECT FOUND"
   <-> line_cell defect_line <> "N/A")
  /\ (status defect_line category = "NO DEFECTS"
      <-> defect_line = None /\ category = "NONE")
  /\ (status defect_line category = "ERROR"
      <-> defect_line = None /\ category <> "NONE").
Proof.
  intros H.
  assert (Hline : forall l, defect_line = Some l ->
                            exists c t, l = String c t
                                        /\ is_digit_or_hyphen c = true).
  { intros l ->. apply parse_llm_result_cases in H
      as [(e & H)|[H|[H|(is_multiple & content & H)]]]; try discriminate.
    injection H as Hl _ _. rewrite defect_fields_line in Hl.
    destruct (search _ content) as [m|] eqn:E; [|discriminate].
    injection Hl as ->. apply search_sound in E as (pre & t & _ & E).
    assert (Hshape : group1 m <> ""
                     /\ all_of is_digit_or_hyphen (group1 m) = true).
    { destruct is_multiple.
      - exact (bracketed_group _ _ _ _ E).
      - destruct (bracketed_group _ _ _ _ E) as [Hne Hdig]. split; [easy|].
        exact (all_of_weaken _ _ _ digit_is_digit_or_hyphen Hdig). }
    destruct Hshape as [Hne Hall].
    destruct (group1 m) as [|c t']; [congruence|].
    cbn [all_of] in Hall. apply andb_true_iff in Hall as [Hc _]. eauto. }
  destruct defect_line as [l|].
  - destruct (Hline l eq_refl) as (c & t & -> & Hc).
    cbn [status line_cell String.eqb].
    assert (Hna : String c t <> "N/A").
    { intros [= -> _]. discriminate Hc. }
    repeat split; try discriminate; try easy;
      try (intros [? _]; discriminate).
  - cbn [status line_cell].
    destruct (String.eqb_spec category "NONE") as [->|Hc];
      repeat split; try discriminate; try easy;
      try (intros [_ ?]; congruence).
Qed.

Lemma status_agrees_with_row_witness :
  (status (Some "12") "PORT_TYPE" = "DEFECT FOUND"
   <-> line_cell (Some "12") <> "N/A")
  /\ (status (Some "12") "PORT_TYPE" = "NO DEFECTS"
      <-> Some "12" = None /\ "PORT_TYPE" = "NONE")
  /\ (status (Some "12") "PORT_TYPE" = "ERROR"
      <-> Some "12" = None /\ "PORT_TYPE" <> "NONE").
Proof.
  apply (status_agrees_with_row
           (chat_answer ("DEFECT LINE: [12]" ++ nl
                         ++ "DEFECT CATEGORY: [PORT_TYPE]"))
           (Some "12") "PORT_TYPE" (PStr "")).
  reflexivity.
Defined.
